(** * The redis job broker of cozy-stack (pkg/jobs/redis_broker.go)

    A shallow embedding of [redisBroker]: its lifecycle flag, the registry of
    worker types and pools, [StartWorkers], [ShutdownWorkers], [pollLoop] and
    [PushJob].  Every call the broker makes on a collaborator (the redis
    client, the job store, a worker pool, the logger, a channel) is recorded
    as an [event]; the answers of the collaborators are inputs of the model. *)

From Stdlib Require Import List String Ascii ZArith Lia Bool Arith.
From Stdlib Require Import Permutation.
Import ListNotations.

Set Warnings "-register-all".

Local Open Scope string_scope.
Local Open Scope list_scope.
Local Open Scope Z_scope.

(** ** Constants *)

(** redisPrefix is the prefix for jobs queues in redis. *)
Definition redisPrefix : string := "j/".

(** redisHighPrioritySuffix is the suffix used for the prioritized queue. *)
Definition redisHighPrioritySuffix : string := "/p0".

(** [time.Duration] counts nanoseconds. *)
Definition Millisecond : Z := 1000000.
Definition Second : Z := 1000 * Millisecond.

Definition redisBRPopTimeout : Z := 10 * Second.

(** Go's [len] on a string or a slice, as an [int]. *)
Definition len_string (s : string) : Z := Z.of_nat (String.length s).
Definition len {A : Type} (l : list A) : Z := Z.of_nat (List.length l).

(** ** Errors *)

(** The two sentinel errors of the package, the errors of the collaborators
    (a context error, a redis error, a storage error), and the value built by
    [multierror.Append]. *)
Inductive error : Type :=
| ErrClosed
| ErrUnknownWorker
| ErrExternal (msg : string)
| ErrMulti (errs : list error).

(** [multierror.Append(errm, err)] for a non-nil [err]: the accumulator is
    either nil or a multi-error already; an appended multi-error is
    flattened, any other error is added as one entry. *)
Definition multierror_entries (e : error) : list error :=
  match e with
  | ErrMulti es => es
  | _ => [e]
  end.

Definition multierror_Append (errm : option error) (err : error) : error :=
  match errm with
  | None => ErrMulti (multierror_entries err)
  | Some acc => ErrMulti (multierror_entries acc ++ multierror_entries err)
  end.

(** ** Data model *)

Record WorkerConfig : Type := {
  WorkerType : string;
  Concurrency : Z
}.

Definition WorkersList : Type := list WorkerConfig.

Record JobRequest : Type := {
  req_WorkerType : string;
  req_Domain : string;
  req_Manual : bool
}.

Record Job : Type := {
  JobID : string;
  Domain : string;
  job_WorkerType : string;
  Manual : bool
}.

(** Modelled from the spec: [NewJob] is not under src/.  The job descriptor
    takes its worker type, domain and manual flag from the request; the
    identifier is assigned later, by [Create]. *)
Definition NewJob (req : JobRequest) : Job :=
  {| JobID := "";
     Domain := req_Domain req;
     job_WorkerType := req_WorkerType req;
     Manual := req_Manual req |}.

Definition set_JobID (j : Job) (id : string) : Job :=
  {| JobID := id;
     Domain := Domain j;
     job_WorkerType := job_WorkerType j;
     Manual := Manual j |}.

(** Modelled from the spec: [utils.IsInArray] is not under src/.  It tells
    whether the string is one of the entries of the slice. *)
Fixpoint IsInArray (s : string) (arr : list string) : bool :=
  match arr with
  | [] => false
  | x :: rest => if String.eqb s x then true else IsInArray s rest
  end.

(** [atomic.CompareAndSwapUint32(&v, old, new)]: the new content of the cell
    and whether the swap happened. *)
Definition CompareAndSwapUint32 (v old new : Z) : Z * bool :=
  if v =? old then (new, true) else (v, false).

(** A feed channel [chan *Job], named by the order of its creation. *)
Definition chan : Type := nat.

(** Arguments of a formatted log line. *)
Inductive logarg : Type :=
| AStr (s : string)
| AInt (n : Z)
| AErr (e : error).

(** The case a [select] statement of [ShutdownWorkers] takes. *)
Inductive select_case : Type :=
| CtxDone
| ClosedToken.

(** ** The environment of a run *)

(** [ctx.Err()] once the context is done. *)
Record Context : Type := { ctx_Err : error }.

(** The scheduler of one shutdown: the case the i-th [select] takes, and
    which of the pending [w.Shutdown] goroutines delivers its result at the
    i-th receive on [errs]. *)
Record Schedule : Type := {
  select_at : nat -> select_case;
  errs_pick : nat -> nat
}.

Fixpoint remove_nth {A : Type} (k : nat) (l : list A) : list A :=
  match l, k with
  | [], _ => []
  | _ :: rest, O => rest
  | x :: rest, S k' => x :: remove_nth k' rest
  end.

(** What one iteration of a poll loop meets: the flag it loads at the head
    of the iteration, the draw [rng.Intn(3)], the answer of
    [BRPop(...).Result()] and the answer of the store facade's [Get]. *)
Record Tick : Type := {
  t_running : Z;
  t_draw : Z;
  t_brpop : list string * option error;
  t_get : string -> string -> error + Job
}.

(** Cut a string at the first occurrence of a separator. *)
Fixpoint cut (sep : ascii) (s : string) : option (string * string) :=
  match s with
  | EmptyString => None
  | String c rest =>
      if Ascii.eqb c sep then Some (EmptyString, rest)
      else
        match cut sep rest with
        | Some (a, b) => Some (String c a, b)
        | None => None
        end
  end.

(** [strings.SplitN(s, sep, 2)] for a separator of one character. *)
Definition SplitN2 (s : string) (sep : ascii) : list string :=
  match cut sep s with
  | Some (a, b) => [a; b]
  | None => [s]
  end.

Definition is_err (e : option error) : bool :=
  match e with Some _ => true | None => false end.

(** The pair of keys handed to [BRPop], in order. *)
Definition pollKeys (key : string) (draw : Z) : string * string :=
  let keyP0 := (key ++ redisHighPrioritySuffix)%string in
  let keyP1 := key in
  if draw =? 0 then (keyP1, keyP0) else (keyP0, keyP1).

(** ** The lists of the queue store

    The redis commands the broker relies on, on the lists of the store: a
    left-push puts the value at the head of the list at the key, and the
    length of a list that does not exist is 0. *)
Definition Lists : Type := string -> list string.

Definition lists_LPush (q : Lists) (key val : string) : Lists :=
  fun k => if String.eqb k key then val :: q k else q k.

Definition lists_LLen (q : Lists) (key : string) : error + Z :=
  inr (len (q key)).

(** The lists after the payloads of a trace have been pushed. *)
Fixpoint lists_after (pushes : list (string * string)) (q : Lists) : Lists :=
  match pushes with
  | [] => q
  | (key, val) :: rest => lists_after rest (lists_LPush q key val)
  end.

(** ** The settings of an instance (web/settings/instance.go)

    The three handlers of the instance settings.  What they call in other
    packages (the instance, the permissions, jsonapi, the echo context) is
    taken as given, in [Env]; what they do to the outside is recorded as a
    trace. *)
Module Settings.

(** A value of [map[string]interface{}]. *)
Inductive value : Type :=
| VString (s : string)
| VBool (b : bool)
| VOther (raw : string).

(** The map [M] of a [couchdb.JSONDoc], with assignment and [delete]. *)
Definition Map : Type := string -> option value.

Definition map_set (m : Map) (k : string) (v : value) : Map :=
  fun x => if String.eqb x k then Some v else m x.

Definition map_delete (m : Map) (k : string) : Map :=
  fun x => if String.eqb x k then None else m x.

Record JSONDoc : Type := {
  M : Map;
  doc_Type : string
}.

Definition set_M (doc : JSONDoc) (m : Map) : JSONDoc :=
  {| M := m; doc_Type := doc_Type doc |}.

Definition set_Type (doc : JSONDoc) (t : string) : JSONDoc :=
  {| M := M doc; doc_Type := t |}.

(** The fields of [instance.Instance] the handlers read. *)
Record Instance : Type := {
  Locale : string;
  OnboardingFinished : bool;
  NoAutoUpdate : bool;
  AuthMode : Z;
  TOSSigned : string;
  UUID : string;
  ContextName : string
}.

Definition Verb : Type := string.

(** [net/http] status codes. *)
Definition StatusOK : Z := 200.
Definition StatusNoContent : Z := 204.
Definition StatusUnprocessableEntity : Z := 422.

(** The constants and functions of the other packages, and the answers of
    the request at hand. *)
Record Env : Type := {
  consts_Settings : string;
  consts_InstanceSettingsID : string;
  permissions_GET : Verb;
  permissions_PUT : Verb;
  webpermissions_PUT : Verb;
  permissions_TypeCLI : string;
  instance_Basic : Z;
  instance_TwoFactorMail : Z;
  instance_AuthModeToString : Z -> string;
  instance_StringToAuthMode : string -> error + Z;
  (* inst.SettingsDocument() *)
  inst_SettingsDocument : Instance -> error + JSONDoc;
  (* inst.HasAuthMode(authMode) *)
  inst_HasAuthMode : Instance -> Z -> bool;
  (* inst.SendMailConfirmationCode() *)
  inst_SendMailConfirmationCode : Instance -> option error;
  (* inst.ValidateMailConfirmationCode(code) *)
  inst_ValidateMailConfirmationCode : Instance -> string -> bool;
  (* webpermissions.Allow(c, verb, doc) *)
  webpermissions_Allow : Verb -> JSONDoc -> option error;
  (* webpermissions.AllowWholeType(c, verb, doctype) *)
  webpermissions_AllowWholeType : Verb -> string -> option error;
  (* webpermissions.GetPermission(c): an error, or the type of the
     permission document *)
  webpermissions_GetPermission : error + string;
  (* jsonapi.Bind(c.Request().Body, doc): an error, or the document read
     and obj.Meta.Rev *)
  jsonapi_Bind : error + (JSONDoc * string);
  (* c.Bind(&args): an error, or args.AuthMode and
     args.TwoFactorActivationCode *)
  c_Bind : error + (string * string);
  (* doc.SetID(id), doc.SetRev(rev) *)
  doc_SetID : JSONDoc -> string -> JSONDoc;
  doc_SetRev : JSONDoc -> string -> JSONDoc;
  (* instance.Patch(inst, &instance.Options{SettingsObj: doc}): an error,
     or the instance and the document as the call leaves them *)
  instance_Patch_SettingsObj : Instance -> JSONDoc -> error + (Instance * JSONDoc);
  (* instance.Patch(inst, &instance.Options{AuthMode: mode}) *)
  instance_Patch_AuthMode : Instance -> string -> option error;
  jsonapi_BadRequest : error -> error;
  (* jsonapi.Data(c, status, &apiInstance{doc}, nil) *)
  jsonapi_Data : Z -> JSONDoc -> option error;
  (* c.NoContent(status) *)
  c_NoContent : Z -> option error
}.

Inductive event : Type :=
| EvSettingsDocument
| EvAllow (verb : Verb) (doc : JSONDoc)
| EvAllowWholeType (verb : Verb) (doctype : string)
| EvBindDoc
| EvBindArgs
| EvGetPermission
| EvPatchSettings (inst : Instance) (doc : JSONDoc)
| EvPatchAuthMode (inst : Instance) (mode : string)
| EvSendMail
| EvValidateCode (code : string)
| EvData (status : Z) (doc : JSONDoc)
| EvNoContent (status : Z).

Definition trace : Type := list event.

(** The seven assignments [doc.M[...] = ...] that [getInstance] and
    [updateInstance] both make, in their order. *)
Definition instance_fields (E : Env) (inst : Instance) (m : Map) : Map :=
  let m := map_set m "locale" (VString (Locale inst)) in
  let m := map_set m "onboarding_finished" (VBool (OnboardingFinished inst)) in
  let m := map_set m "auto_update" (VBool (negb (NoAutoUpdate inst))) in
  let m := map_set m "auth_mode"
             (VString (instance_AuthModeToString E (AuthMode inst))) in
  let m := map_set m "tos" (VString (TOSSigned inst)) in
  let m := map_set m "uuid" (VString (UUID inst)) in
  map_set m "context" (VString (ContextName inst)).

Definition getInstance (E : Env) (inst : Instance) : trace * option error :=
  match inst_SettingsDocument E inst with
  | inl err => ([EvSettingsDocument], Some err)
  | inr doc =>
      let doc := set_M doc (instance_fields E inst (M doc)) in
      match webpermissions_Allow E (permissions_GET E) doc with
      | Some err =>
          ([EvSettingsDocument; EvAllow (permissions_GET E) doc], Some err)
      | None =>
          ([EvSettingsDocument; EvAllow (permissions_GET E) doc;
            EvData StatusOK doc],
           jsonapi_Data E StatusOK doc)
      end
  end.

(** The four [delete(doc.M, ...)] of [updateInstance]. *)
Definition delete_protected (m : Map) : Map :=
  let m := map_delete m "auth_mode" in
  let m := map_delete m "tos" in
  let m := map_delete m "uuid" in
  map_delete m "context".

Definition updateInstance (E : Env) (inst : Instance) : trace * option error :=
  match jsonapi_Bind E with
  | inl err => ([EvBindDoc], Some err)
  | inr (doc, rev) =>
      let doc := set_Type doc (consts_Settings E) in
      let doc := doc_SetID E doc (consts_InstanceSettingsID E) in
      let doc := doc_SetRev E doc rev in
      match webpermissions_Allow E (webpermissions_PUT E) doc with
      | Some err => ([EvBindDoc; EvAllow (webpermissions_PUT E) doc], Some err)
      | None =>
          let restricted :=
            match webpermissions_GetPermission E with
            | inl _ => true
            | inr pdoc_Type =>
                negb (String.eqb pdoc_Type (permissions_TypeCLI E))
            end in
          let doc' :=
            if restricted then set_M doc (delete_protected (M doc)) else doc in
          let tr :=
            [EvBindDoc; EvAllow (webpermissions_PUT E) doc; EvGetPermission;
             EvPatchSettings inst doc'] in
          match instance_Patch_SettingsObj E inst doc' with
          | inl err => (tr, Some err)
          | inr (inst', doc'') =>
              let out := set_M doc'' (instance_fields E inst' (M doc'')) in
              (tr ++ [EvData StatusOK out], jsonapi_Data E StatusOK out)
          end
      end
  end.

Definition updateInstanceAuthMode (E : Env) (inst : Instance)
  : trace * option error :=
  let allow := EvAllowWholeType (permissions_PUT E) (consts_Settings E) in
  match webpermissions_AllowWholeType E (permissions_PUT E) (consts_Settings E)
  with
  | Some err => ([allow], Some err)
  | None =>
      match c_Bind E with
      | inl err => ([allow; EvBindArgs], Some err)
      | inr (args_AuthMode, args_TwoFactorActivationCode) =>
          match instance_StringToAuthMode E args_AuthMode with
          | inl err => ([allow; EvBindArgs], Some (jsonapi_BadRequest E err))
          | inr authMode =>
              if inst_HasAuthMode E inst authMode
              then ([allow; EvBindArgs; EvNoContent StatusNoContent],
                    c_NoContent E StatusNoContent)
              else
                let patch (tr : trace) :=
                  match instance_Patch_AuthMode E inst args_AuthMode with
                  | Some err =>
                      (tr ++ [EvPatchAuthMode inst args_AuthMode], Some err)
                  | None =>
                      (tr ++ [EvPatchAuthMode inst args_AuthMode;
                              EvNoContent StatusNoContent],
                       c_NoContent E StatusNoContent)
                  end in
                if authMode =? instance_Basic E
                then patch [allow; EvBindArgs]
                else if authMode =? instance_TwoFactorMail E
                then
                  if String.eqb args_TwoFactorActivationCode ""
                  then
                    match inst_SendMailConfirmationCode E inst with
                    | Some err => ([allow; EvBindArgs; EvSendMail], Some err)
                    | None =>
                        ([allow; EvBindArgs; EvSendMail;
                          EvNoContent StatusNoContent],
                         c_NoContent E StatusNoContent)
                    end
                  else if negb (inst_ValidateMailConfirmationCode E inst
                                  args_TwoFactorActivationCode)
                  then
                    ([allow; EvBindArgs;
                      EvValidateCode args_TwoFactorActivationCode;
                      EvNoContent StatusUnprocessableEntity],
                     c_NoContent E StatusUnprocessableEntity)
                  else
                    patch [allow; EvBindArgs;
                           EvValidateCode args_TwoFactorActivationCode]
                else patch [allow; EvBindArgs]
          end
      end
  end.

(** The keys [updateInstance] withholds from a caller that is not the
    command line. *)
Definition protected : list string := ["auth_mode"; "tos"; "uuid"; "context"].

(** The keys both handlers fill from the instance. *)
Definition instance_keys : list string :=
  ["locale"; "onboarding_finished"; "auto_update"; "auth_mode"; "tos";
   "uuid"; "context"].

(** Readings of a trace. *)
Fixpoint patched_settings (tr : trace) : list (Instance * JSONDoc) :=
  match tr with
  | [] => []
  | EvPatchSettings i d :: rest => (i, d) :: patched_settings rest
  | _ :: rest => patched_settings rest
  end.

Fixpoint patched_modes (tr : trace) : list string :=
  match tr with
  | [] => []
  | EvPatchAuthMode _ m :: rest => m :: patched_modes rest
  | _ :: rest => patched_modes rest
  end.

Fixpoint responses (tr : trace) : list event :=
  match tr with
  | [] => []
  | EvData s d :: rest => EvData s d :: responses rest
  | EvNoContent s :: rest => EvNoContent s :: responses rest
  | _ :: rest => responses rest
  end.

Fixpoint mails (tr : trace) : nat :=
  match tr with
  | [] => O
  | EvSendMail :: rest => S (mails rest)
  | _ :: rest => mails rest
  end.

End Settings.

(** ** An instance and its requests *)
Module SettingsScenario.
Import Settings.

Definition alice : Instance :=
  {| Locale := "fr"; OnboardingFinished := true; NoAutoUpdate := false;
     AuthMode := 0; TOSSigned := "1.0.0"; UUID := "u-1";
     ContextName := "beta" |}.

(** The body of a request: a new locale, a time zone and a forged uuid. *)
Definition body : JSONDoc :=
  {| M := fun k =>
            if String.eqb k "locale" then Some (VString "en")
            else if String.eqb k "tz" then Some (VString "Europe/Paris")
            else if String.eqb k "uuid" then Some (VString "forged")
            else None;
     doc_Type := "" |}.

Definition stored : JSONDoc :=
  {| M := fun k =>
            if String.eqb k "tz" then Some (VString "Europe/Berlin")
            else if String.eqb k "locale" then Some (VString "de")
            else None;
     doc_Type := "io.cozy.settings" |}.

Definition modeName (m : Z) : string :=
  if m =? 1 then "two_factor_mail" else "basic".

Definition parseMode (s : string) : error + Z :=
  if String.eqb s "basic" then inr 0
  else if String.eqb s "two_factor_mail" then inr 1
  else inl (ErrExternal "Invalid auth mode").

(** Patching the settings takes the locale of the document when it is a
    string. *)
Definition patchSettings (inst : Instance) (doc : JSONDoc)
  : error + (Instance * JSONDoc) :=
  inr ({| Locale := match M doc "locale" with
                    | Some (VString l) => l
                    | _ => Locale inst
                    end;
          OnboardingFinished := OnboardingFinished inst;
          NoAutoUpdate := NoAutoUpdate inst;
          AuthMode := AuthMode inst;
          TOSSigned := TOSSigned inst;
          UUID := UUID inst;
          ContextName := ContextName inst |}, doc).

(** A site where everything is allowed and works, for a caller whose
    permission is [perm] and a request whose arguments are [args]. *)
Definition site (perm : error + string) (args : error + (string * string))
  : Env :=
  {| consts_Settings := "io.cozy.settings";
     consts_InstanceSettingsID := "io.cozy.settings.instance";
     permissions_GET := "GET";
     permissions_PUT := "PUT";
     webpermissions_PUT := "PUT";
     permissions_TypeCLI := "cli";
     instance_Basic := 0;
     instance_TwoFactorMail := 1;
     instance_AuthModeToString := modeName;
     instance_StringToAuthMode := parseMode;
     inst_SettingsDocument := fun _ => inr stored;
     inst_HasAuthMode := fun inst m => AuthMode inst =? m;
     inst_SendMailConfirmationCode := fun _ => None;
     inst_ValidateMailConfirmationCode := fun _ code => String.eqb code "123456";
     webpermissions_Allow := fun _ _ => None;
     webpermissions_AllowWholeType := fun _ _ => None;
     webpermissions_GetPermission := perm;
     jsonapi_Bind := inr (body, "3-abc");
     c_Bind := args;
     doc_SetID := fun doc id => set_M doc (map_set (M doc) "_id" (VString id));
     doc_SetRev := fun doc rev => set_M doc (map_set (M doc) "_rev" (VString rev));
     instance_Patch_SettingsObj := patchSettings;
     instance_Patch_AuthMode := fun _ _ => None;
     jsonapi_BadRequest := fun e => e;
     jsonapi_Data := fun _ _ => None;
     c_NoContent := fun _ => None |}.

Definition from_app : error + string := inr "app".
Definition from_cli : error + string := inr "cli".

Definition with_code : error + (string * string) :=
  inr ("two_factor_mail", "123456").
Definition without_code : error + (string * string) :=
  inr ("two_factor_mail", "").
Definition wrong_code : error + (string * string) :=
  inr ("two_factor_mail", "000000").
Definition to_basic : error + (string * string) := inr ("basic", "").
Definition to_sso : error + (string * string) := inr ("sso", "").

End SettingsScenario.

(** ** A small deployment

    Three worker types, one of which is only registered here (concurrency
    0); pools are named by their configuration. *)
Module Scenario.

Definition Pool : Type := WorkerConfig.
Definition newPool (conf : WorkerConfig) : Pool := conf.

Definition konnector : WorkerConfig :=
  {| WorkerType := "konnector"; Concurrency := 2 |}.
Definition thumbnail : WorkerConfig :=
  {| WorkerType := "thumbnail"; Concurrency := 0 |}.
Definition sendmail : WorkerConfig :=
  {| WorkerType := "sendmail"; Concurrency := 1 |}.

Definition configured : WorkersList := [konnector; thumbnail; sendmail].

(** Every pool starts; at shutdown the sendmail pool runs out of time. *)
Definition starts (w : Pool) : option error := None.
Definition deadline : error := ErrExternal "context deadline exceeded".
Definition stops (w : Pool) : option error :=
  if String.eqb (WorkerType w) "sendmail" then Some deadline else None.

Definition slots : Z := 0.

(** The store gives every job the identifier 42; redis is up, or down. *)
Definition creates (j : Job) : error + string := inr "42".
Definition redis_up (key val : string) : option error := None.
Definition refused : error := ErrExternal "connection refused".
Definition redis_down (key val : string) : option error := Some refused.

Definition ctx50ms : Context := {| ctx_Err := deadline |}.

(** All poll loops signal in time; results of the pools arrive last first. *)
Definition all_signal : Schedule :=
  {| select_at := fun _ => ClosedToken; errs_pick := fun _ => 1%nat |}.

(** The context expires at the second [select]. *)
Definition expires : Schedule :=
  {| select_at := fun i => if Nat.eqb i 1 then CtxDone else ClosedToken;
     errs_pick := fun _ => O |}.

Definition manual_sync : JobRequest :=
  {| req_WorkerType := "konnector"; req_Domain := "alice.cozy";
     req_Manual := true |}.
Definition unzip : JobRequest :=
  {| req_WorkerType := "unzip"; req_Domain := "alice.cozy";
     req_Manual := false |}.

Definition sync42 : Job :=
  {| JobID := "42"; Domain := "alice.cozy"; job_WorkerType := "konnector";
     Manual := true |}.

Definition store (domain jobID : string) : error + Job :=
  if String.eqb jobID "42" then inr sync42 else inl (ErrExternal "not_found").

(** Ticks of a poll loop: a delivery, a pop that times out, a payload
    without a slash, a payload the store does not know, and the flag at 0. *)
Definition delivery : Tick :=
  {| t_running := 1; t_draw := 2;
     t_brpop := (["j/konnector/p0"; "alice.cozy/42"], None);
     t_get := store |}.
Definition timeout : Tick :=
  {| t_running := 1; t_draw := 0;
     t_brpop := ([], Some (ErrExternal "redis: nil"));
     t_get := store |}.
Definition poison : Tick :=
  {| t_running := 1; t_draw := 1;
     t_brpop := (["j/konnector"; "nodomain"], None);
     t_get := store |}.
Definition unknown : Tick :=
  {| t_running := 1; t_draw := 1;
     t_brpop := (["j/konnector"; "alice.cozy/7"], None);
     t_get := store |}.
(** The store answers a pop with a key of one character. *)
Definition short_key : Tick :=
  {| t_running := 1; t_draw := 1;
     t_brpop := (["j"; "alice.cozy/42"], None);
     t_get := store |}.
Definition closing : Tick :=
  {| t_running := 0; t_draw := 1;
     t_brpop := ([], None);
     t_get := store |}.

(** The sendmail pool fails to start. *)
Definition falters (w : Pool) : option error :=
  if String.eqb (WorkerType w) "sendmail" then Some refused else None.

(** A request for the type that is only registered here. *)
Definition resize : JobRequest :=
  {| req_WorkerType := "thumbnail"; req_Domain := "bob.cozy";
     req_Manual := false |}.

(** A request whose domain holds a slash. *)
Definition odd_sync : JobRequest :=
  {| req_WorkerType := "konnector"; req_Domain := "alice/cozy";
     req_Manual := false |}.

(** A poll loop pops the payload of that request. *)
Definition odd : Tick :=
  {| t_running := 1; t_draw := 1;
     t_brpop := (["j/konnector"; "alice/cozy/42"], None);
     t_get := store |}.

(** Lengths of queues: redis answers 3 for every list, or fails on the
    manual lanes. *)
Definition three (key : string) : error + Z := inr 3.
Definition half_down (key : string) : error + Z :=
  if String.eqb key "j/konnector" then inr 3 else inl refused.

(** Two payloads wait on the normal lane of the konnector type. *)
Definition waiting : Lists :=
  fun k => if String.eqb k "j/konnector" then ["bob.cozy/8"; "bob.cozy/7"]
           else [].

End Scenario.

Section Broker.

(** *** Collaborators *)

(** The worker pool (pkg/jobs, not under src/): an opaque handle built by
    [NewWorker], with the results of its [Start] and [Shutdown]. *)
Context {Worker : Type}.
Variable NewWorker : WorkerConfig -> Worker.
Variable worker_Start : Worker -> option error.
Variable worker_Shutdown : Worker -> option error.

(** [config.GetConfig().Jobs.NbWorkers], the legacy global slot count. *)
Variable NbWorkers : Z.

(** The job store facade and the redis client (not under src/): what
    [job.Create()] answers for a job (an error, or the identifier it
    assigns) and what [LPush(key, val).Err()] answers. *)
Variable job_Create : Job -> error + string.
Variable client_LPush : string -> string -> option error.

Record redisBroker : Type := {
  workers : list Worker;
  workersTypes : list string;
  running : Z
}.

Definition set_running (b : redisBroker) (r : Z) : redisBroker :=
  {| workers := workers b; workersTypes := workersTypes b; running := r |}.

Definition push_workersTypes (b : redisBroker) (t : string) : redisBroker :=
  {| workers := workers b;
     workersTypes := workersTypes b ++ [t];
     running := running b |}.

Definition push_workers (b : redisBroker) (w : Worker) : redisBroker :=
  {| workers := workers b ++ [w];
     workersTypes := workersTypes b;
     running := running b |}.

(** What the broker does to the outside, in program order. *)
Inductive event : Type :=
| EvWorkerStart (w : Worker) (ch : chan)          (* w.Start(ch) *)
| EvGoPollLoop (key : string) (ch : chan)         (* go b.pollLoop(key, ch) *)
| EvInfof (fmt : string) (args : list logarg)     (* joblog.Infof *)
| EvWarnf (fmt : string) (args : list logarg)     (* joblog.Warnf *)
| EvSetNbSlots (slots : Z)                        (* setNbSlots(slots) *)
| EvPrint (args : list logarg)                    (* fmt.Print *)
| EvPrintln (args : list logarg)                  (* fmt.Println *)
| EvRecvClosed                                    (* <-b.closed *)
| EvSendClosed                                    (* b.closed <- struct{}{} *)
| EvGoShutdown (w : Worker)                       (* go ... w.Shutdown(ctx) *)
| EvRecvErr (e : option error)                    (* <-errs *)
| EvClientClose                                   (* b.client.Close() *)
| EvBRPop (timeout : Z) (k0 k1 : string)          (* b.client.BRPop *)
| EvSleep (d : Z)                                 (* time.Sleep *)
| EvGet (domain jobID : string)                   (* Get(domain, jobID) *)
| EvSendJob (ch : chan) (j : Job)                 (* ch <- job *)
| EvCreate (j : Job) (r : error + string)         (* job.Create() *)
| EvLPush (key val : string) (r : option error).  (* b.client.LPush *)

Definition trace : Type := list event.

(** *** NewRedisBroker *)

Definition NewRedisBroker : redisBroker :=
  {| workers := []; workersTypes := []; running := 0 |}.

(** *** StartWorkers *)

(** The [for _, conf := range ws] loop.  The result is the broker, what was
    done, and the error of the pool that failed to start, if any. *)
Fixpoint startLoop (ws : WorkersList) (b : redisBroker) (tr : trace)
  : redisBroker * trace * option error :=
  match ws with
  | [] => (b, tr, None)
  | conf :: rest =>
      let b1 := push_workersTypes b (WorkerType conf) in
      if Concurrency conf <=? 0 then startLoop rest b1 tr
      else
        let ch : chan := List.length (workers b1) in
        let w := NewWorker conf in
        let b2 := push_workers b1 w in
        match worker_Start w with
        | Some err => (b2, tr ++ [EvWorkerStart w ch], Some err)
        | None =>
            startLoop rest b2
              (tr ++ [EvWorkerStart w ch;
                      EvGoPollLoop (redisPrefix ++ WorkerType conf)%string ch])
        end
  end.

Definition StartWorkers (b : redisBroker) (ws : WorkersList)
  : redisBroker * trace * option error :=
  let '(r, swapped) := CompareAndSwapUint32 (running b) 0 1 in
  if negb swapped then (b, [], Some ErrClosed)
  else
    match startLoop ws (set_running b r) [] with
    | (b', tr, Some err) => (b', tr, Some err)
    | (b', tr, None) =>
        let tr1 :=
          if len (workers b') >? 0
          then tr ++ [EvInfof "Started redis broker for %d workers type"
                        [AInt (len (workers b'))]]
          else tr in
        let slots := NbWorkers in
        let tr2 :=
          if (len (workers b') >? 0) && (slots >? 0)
          then tr1 ++
               [EvWarnf "Limiting the number of total concurrent workers to %d"
                  [AInt slots];
                EvWarnf "Please update your configuration file to avoid a hard limit" [];
                EvSetNbSlots slots]
          else tr1 in
        (b', tr2, None)
    end.

Definition WorkersTypes (b : redisBroker) : list string := workersTypes b.

(** *** ShutdownWorkers *)

(** The first loop: one [select] per pool, on [ctx.Done()] and [b.closed].
    The boolean tells whether the loop ran to its end. *)
Fixpoint waitClosed (ctx : Context) (sch : Schedule) (n i : nat)
  : trace * bool :=
  match n with
  | O => ([], true)
  | S n' =>
      match select_at sch i with
      | CtxDone =>
          ([EvPrintln [AStr "failed:"; AErr (ctx_Err ctx)]], false)
      | ClosedToken =>
          let '(tr, done) := waitClosed ctx sch n' (S i) in
          (EvRecvClosed :: tr, done)
      end
  end.

(** The order in which the spawned goroutines deliver on [errs]: each
    receive takes the result of one goroutine that has not delivered yet. *)
Fixpoint recvOrder (pick : nat -> nat) (n i : nat) (pending : list Worker)
  : list Worker :=
  match n, pending with
  | S n', w0 :: _ =>
      let k := Nat.modulo (pick i) (List.length pending) in
      nth k pending w0 :: recvOrder pick n' (S i) (remove_nth k pending)
  | _, _ => []
  end.

(** The second loop: [if err := <-errs; err != nil { errm = Append(...) }]. *)
Fixpoint collectErrs (received : list Worker) (errm : option error)
  : trace * option error :=
  match received with
  | [] => ([], errm)
  | w :: rest =>
      let err := worker_Shutdown w in
      let errm' :=
        match err with
        | Some e => Some (multierror_Append errm e)
        | None => errm
        end in
      let '(tr, r) := collectErrs rest errm' in
      (EvRecvErr err :: tr, r)
  end.

Definition ShutdownWorkers (b : redisBroker) (ctx : Context) (sch : Schedule)
  : redisBroker * trace * option error :=
  let '(r, swapped) := CompareAndSwapUint32 (running b) 1 0 in
  if negb swapped then (b, [], Some ErrClosed)
  else
    let b := set_running b r in
    if len (workers b) =? 0 then (b, [], None)
    else
      let tr0 := [EvPrint [AStr "  shutting down redis broker..."]] in
      (* defer b.client.Close(): runs last on every path below *)
      match waitClosed ctx sch (List.length (workers b)) 0 with
      | (tr1, false) =>
          (b, tr0 ++ tr1 ++ [EvClientClose], Some (ctx_Err ctx))
      | (tr1, true) =>
          let tr2 := map EvGoShutdown (workers b) in
          let received :=
            recvOrder (errs_pick sch) (List.length (workers b)) 0 (workers b) in
          let '(tr3, errm) := collectErrs received None in
          let tr4 :=
            match errm with
            | Some e => [EvPrintln [AStr "failed: "; AErr e]]
            | None => [EvPrintln [AStr "ok"]]
            end in
          (b, tr0 ++ tr1 ++ tr2 ++ tr3 ++ tr4 ++ [EvClientClose], errm)
      end.

(** *** pollLoop *)

(** One iteration of the loop, after the check of the flag. *)
Definition pollBody (key : string) (ch : chan) (t : Tick) : trace :=
  let '(keyP0, keyP1) := pollKeys key (t_draw t) in
  let '(results, err) := t_brpop t in
  EvBRPop redisBRPopTimeout keyP0 keyP1 ::
  if is_err err || (len results <? 2) then [EvSleep (100 * Millisecond)]
  else
    let key := nth 0 results EmptyString in
    let val := nth 1 results EmptyString in
    if len_string key <? len_string redisPrefix
    then [EvWarnf "Invalid key %s" [AStr key]]
    else
      match SplitN2 val "/"%char with
      | [domain; jobID] =>
          EvGet domain jobID ::
          match t_get t domain jobID with
          | inl err =>
              [EvWarnf "Cannot find job %s on domain %s: %s"
                 [AStr jobID; AStr domain; AErr err]]
          | inr job => [EvSendJob ch job]
          end
      | _ => [EvWarnf "Invalid val %s" [AStr val]]
      end.

(** The loop over the iterations the environment supplies.  The boolean
    tells whether the loop returned; the deferred send on [b.closed] runs
    when it does. *)
Fixpoint pollLoop (key : string) (ch : chan) (ticks : list Tick)
  : trace * bool :=
  match ticks with
  | [] => ([], false)
  | t :: rest =>
      if t_running t =? 0 then ([EvSendClosed], true)
      else
        let '(tr, exited) := pollLoop key ch rest in
        (pollBody key ch t ++ tr, exited)
  end.

(** *** PushJob *)

Definition PushJob (b : redisBroker) (req : JobRequest)
  : trace * (option Job * option error) :=
  if running b =? 0 then ([], (None, Some ErrClosed))
  else if negb (IsInArray (req_WorkerType req) (workersTypes b))
  then ([], (None, Some ErrUnknownWorker))
  else
    let job := NewJob req in
    let created := job_Create job in
    match created with
    | inl err => ([EvCreate job created], (None, Some err))
    | inr id =>
        let job' := set_JobID job id in
        let key := (redisPrefix ++ job_WorkerType job')%string in
        let val := (Domain job' ++ "/" ++ JobID job')%string in
        let key :=
          if Manual job' then (key ++ redisHighPrioritySuffix)%string
          else key in
        let pushed := client_LPush key val in
        match pushed with
        | Some err =>
            ([EvCreate job created; EvLPush key val pushed], (None, Some err))
        | None =>
            ([EvCreate job created; EvLPush key val pushed],
             (Some job', None))
        end
    end.

(** *** Reading a trace *)

(** The jobs the store holds on account of a trace: those whose [Create]
    succeeded, with the identifier assigned. *)
Fixpoint persisted (tr : trace) : list Job :=
  match tr with
  | [] => []
  | EvCreate j (inr id) :: rest => set_JobID j id :: persisted rest
  | _ :: rest => persisted rest
  end.

(** The payloads the queues received: the successful left-pushes. *)
Fixpoint enqueued (tr : trace) : list (string * string) :=
  match tr with
  | [] => []
  | EvLPush key val None :: rest => (key, val) :: enqueued rest
  | _ :: rest => enqueued rest
  end.

Definition is_ClientClose (e : event) : bool :=
  match e with EvClientClose => true | _ => false end.
Definition is_RecvClosed (e : event) : bool :=
  match e with EvRecvClosed => true | _ => false end.
Definition is_SendClosed (e : event) : bool :=
  match e with EvSendClosed => true | _ => false end.
Definition is_GoShutdown (e : event) : bool :=
  match e with EvGoShutdown _ => true | _ => false end.
Definition is_Sleep (e : event) : bool :=
  match e with EvSleep _ => true | _ => false end.
Definition is_SendJob (e : event) : bool :=
  match e with EvSendJob _ _ => true | _ => false end.
Definition is_LPush (e : event) : bool :=
  match e with EvLPush _ _ _ => true | _ => false end.
Definition is_Warnf (e : event) : bool :=
  match e with EvWarnf _ _ => true | _ => false end.
Definition is_BRPop (e : event) : bool :=
  match e with EvBRPop _ _ _ => true | _ => false end.

Definition count (p : event -> bool) (tr : trace) : nat :=
  List.length (filter p tr).

(** The keys of the poll loops a trace spawns, and the pools it starts. *)
Fixpoint pollLoops (tr : trace) : list string :=
  match tr with
  | [] => []
  | EvGoPollLoop key _ :: rest => key :: pollLoops rest
  | _ :: rest => pollLoops rest
  end.

Fixpoint started (tr : trace) : list Worker :=
  match tr with
  | [] => []
  | EvWorkerStart w _ :: rest => w :: started rest
  | _ :: rest => started rest
  end.

(** The ordered key pairs of the blocking pops of a trace. *)
Fixpoint pops (tr : trace) : list (string * string) :=
  match tr with
  | [] => []
  | EvBRPop _ k0 k1 :: rest => (k0, k1) :: pops rest
  | _ :: rest => pops rest
  end.

(** The iterations a poll loop runs on the ticks it is given: those that
    come before the first tick at which the flag reads 0. *)
Fixpoint iterations (ticks : list Tick) : list Tick :=
  match ticks with
  | [] => []
  | t :: rest => if t_running t =? 0 then [] else t :: iterations rest
  end.

(** The values the lifecycle flag takes. *)
Definition flag_ok (r : Z) : Prop := r = 0 \/ r = 1.

(** The entries of a workers list that get a pool in this process. *)
Definition has_slots (conf : WorkerConfig) : bool := 0 <? Concurrency conf.

(** Every pool the list asks for starts without error. *)
Definition all_start (ws : WorkersList) : Prop :=
  forall conf, In conf ws -> has_slots conf = true ->
               worker_Start (NewWorker conf) = None.

(** The errors the pools report at shutdown, as entries of a multi-error. *)
Definition shutdown_errors (ws : list Worker) : list error :=
  flat_map (fun w => match worker_Shutdown w with
                     | Some e => multierror_entries e
                     | None => []
                     end) ws.

Definition entries_of (errm : option error) : list error :=
  match errm with
  | Some e => multierror_entries e
  | None => []
  end.

Definition quiet (w : Worker) : bool := negb (is_err (worker_Shutdown w)).

(** The two ways a shutdown of a running broker with pools goes. *)
Definition failed_line (ctx : Context) : event :=
  EvPrintln [AStr "failed:"; AErr (ctx_Err ctx)].

Definition verdict_line (errm : option error) : event :=
  match errm with
  | Some e => EvPrintln [AStr "failed: "; AErr e]
  | None => EvPrintln [AStr "ok"]
  end.

(** The ways one iteration goes. *)
Inductive outcome (ch : chan) (t : Tick) : trace -> Prop :=
| PopFailed :
    is_err (snd (t_brpop t)) || (len (fst (t_brpop t)) <? 2) = true ->
    outcome ch t [EvSleep (100 * Millisecond)]
| InvalidKey key val more :
    t_brpop t = (key :: val :: more, None) ->
    (String.length key < 2)%nat ->
    outcome ch t [EvWarnf "Invalid key %s" [AStr key]]
| InvalidVal key val more :
    t_brpop t = (key :: val :: more, None) ->
    (2 <= String.length key)%nat ->
    cut "/" val = None ->
    outcome ch t [EvWarnf "Invalid val %s" [AStr val]]
| NotFound key val more domain jobID err :
    t_brpop t = (key :: val :: more, None) ->
    (2 <= String.length key)%nat ->
    cut "/" val = Some (domain, jobID) ->
    t_get t domain jobID = inl err ->
    outcome ch t
      [EvGet domain jobID;
       EvWarnf "Cannot find job %s on domain %s: %s"
         [AStr jobID; AStr domain; AErr err]]
| Delivered key val more domain jobID job :
    t_brpop t = (key :: val :: more, None) ->
    (2 <= String.length key)%nat ->
    cut "/" val = Some (domain, jobID) ->
    t_get t domain jobID = inr job ->
    outcome ch t [EvGet domain jobID; EvSendJob ch job].

(** *** WorkerQueueLen *)

(** What [LLen(key).Result()] answers: an error, or a length, an [int64]. *)
Variable client_LLen : string -> error + Z.

(** The value of an [int64] expression; [int] is 64 bits wide as well. *)
Definition wrap_int64 (z : Z) : Z := (z + 2 ^ 63) mod 2 ^ 64 - 2 ^ 63.

(** The result comes with the keys handed to [LLen], in the order of the
    calls. *)
Definition WorkerQueueLen (b : redisBroker) (workerType : string)
  : list string * (Z * option error) :=
  let key := (redisPrefix ++ workerType)%string in
  match client_LLen key with
  | inl err => ([key], (0, Some err))
  | inr l1 =>
      let keyP0 := (key ++ redisHighPrioritySuffix)%string in
      match client_LLen keyP0 with
      | inl err => ([key; keyP0], (0, Some err))
      | inr l2 => ([key; keyP0], (wrap_int64 (l1 + l2), None))
      end
  end.

(** The two queues of a worker type: the normal lane, then the manual one. *)
Definition lanes (workerType : string) : list string :=
  [(redisPrefix ++ workerType)%string;
   ((redisPrefix ++ workerType) ++ redisHighPrioritySuffix)%string].

(** *** More readings of a trace *)

(** The jobs sent on feed channels, the calls of [setNbSlots], and the
    lookups in the job store. *)
Fixpoint sent (tr : trace) : list (chan * Job) :=
  match tr with
  | [] => []
  | EvSendJob ch j :: rest => (ch, j) :: sent rest
  | _ :: rest => sent rest
  end.

Fixpoint slot_limits (tr : trace) : list Z :=
  match tr with
  | [] => []
  | EvSetNbSlots n :: rest => n :: slot_limits rest
  | _ :: rest => slot_limits rest
  end.

(** What the warnings of a trace carry: the arguments of its [Warnf]
    calls, in order. *)
Fixpoint logged (tr : trace) : list logarg :=
  match tr with
  | [] => []
  | EvWarnf _ args :: rest => args ++ logged rest
  | _ :: rest => logged rest
  end.

Fixpoint lookups (tr : trace) : list (string * string) :=
  match tr with
  | [] => []
  | EvGet d i :: rest => (d, i) :: lookups rest
  | _ :: rest => lookups rest
  end.

(** The events of a poll loop: it pops, sleeps, warns, looks jobs up, feeds
    its own channel and signals its end. *)
Definition poll_event (ch : chan) (e : event) : bool :=
  match e with
  | EvBRPop _ _ _ | EvSleep _ | EvWarnf _ _ | EvGet _ _ | EvSendClosed => true
  | EvSendJob ch' _ => Nat.eqb ch' ch
  | _ => false
  end.

(** The index of the first [select] of the waiting loop that takes the
    context's case, among the first [n]. *)
Fixpoint first_done (sch : Schedule) (n i : nat) : option nat :=
  match n with
  | O => None
  | S n' =>
      match select_at sch i with
      | CtxDone => Some i
      | ClosedToken => first_done sch n' (S i)
      end
  end.

(** The brokers a process can hold: a new one, and what [StartWorkers] and
    [ShutdownWorkers] leave, whatever they return. *)
Inductive reachable : redisBroker -> Prop :=
| reach_new : reachable NewRedisBroker
| reach_start b ws :
    reachable b -> reachable (fst (fst (StartWorkers b ws)))
| reach_shutdown b ctx sch :
    reachable b -> reachable (fst (fst (ShutdownWorkers b ctx sch))).

(** Take apart an equation between two results without touching the traces. *)
Ltac triple_eq H :=
  let E1 := fresh in let E2 := fresh in let E3 := fresh in
  apply pair_equal_spec in H; destruct H as [H E3];
  apply pair_equal_spec in H; destruct H as [E1 E2];
  subst.

(** ** The start loop *)

Lemma pollLoops_app (t1 t2 : trace) :
  pollLoops (t1 ++ t2) = pollLoops t1 ++ pollLoops t2.
Proof.
  induction t1 as [|e t1 IH]; simpl; [reflexivity|].
  destruct e; simpl; rewrite ?IH; reflexivity.
Qed.

Lemma started_app (t1 t2 : trace) :
  started (t1 ++ t2) = started t1 ++ started t2.
Proof.
  induction t1 as [|e t1 IH]; simpl; [reflexivity|].
  destruct e; simpl; rewrite ?IH; reflexivity.
Qed.

Lemma startLoop_running (ws : WorkersList) :
  forall b tr b' tr' e,
    startLoop ws b tr = (b', tr', e) -> running b' = running b.
Proof.
  induction ws as [|conf rest IH]; intros b tr b' tr' e H; simpl in H.
  - inversion H; reflexivity.
  - destruct (Concurrency conf <=? 0).
    + apply IH in H. exact H.
    + destruct (worker_Start (NewWorker conf)).
      * inversion H; reflexivity.
      * apply IH in H. exact H.
Qed.

Lemma startLoop_ok (ws : WorkersList) :
  forall b tr b' tr',
    startLoop ws b tr = (b', tr', None) ->
    workersTypes b' = workersTypes b ++ map WorkerType ws /\
    workers b' = workers b ++ map NewWorker (filter has_slots ws) /\
    started tr' = started tr ++ map NewWorker (filter has_slots ws) /\
    pollLoops tr' =
      pollLoops tr ++
      map (fun c => (redisPrefix ++ WorkerType c)%string) (filter has_slots ws).
Proof.
  induction ws as [|conf rest IH]; intros b tr b' tr' H; simpl in H.
  - inversion H; subst. simpl. rewrite !app_nil_r. auto.
  - unfold has_slots at 1 2 3. simpl filter.
    destruct (Concurrency conf <=? 0) eqn:Hc.
    + apply Z.leb_le in Hc.
      replace (0 <? Concurrency conf) with false
        by (symmetry; apply Z.ltb_ge; lia).
      apply IH in H. simpl in H.
      destruct H as (H1 & H2 & H3 & H4).
      rewrite H1, H2, H3, H4, <- app_assoc. simpl. auto.
    + apply Z.leb_gt in Hc.
      replace (0 <? Concurrency conf) with true
        by (symmetry; apply Z.ltb_lt; lia).
      destruct (worker_Start (NewWorker conf)); [discriminate|].
      apply IH in H. simpl in H.
      destruct H as (H1 & H2 & H3 & H4).
      rewrite H1, H2, H3, H4, started_app, pollLoops_app.
      simpl. rewrite <- !app_assoc. simpl. auto.
Qed.

Lemma startLoop_all_start (ws : WorkersList) :
  all_start ws ->
  forall b tr, exists b' tr', startLoop ws b tr = (b', tr', None).
Proof.
  induction ws as [|conf rest IH]; intros Hall b tr; simpl.
  - eauto.
  - assert (Hrest : all_start rest).
    { intros c Hin Hs. apply Hall; [right; exact Hin | exact Hs]. }
    destruct (Concurrency conf <=? 0) eqn:Hc.
    + apply IH. exact Hrest.
    + rewrite (Hall conf).
      * apply IH. exact Hrest.
      * left; reflexivity.
      * unfold has_slots. apply Z.ltb_lt. apply Z.leb_gt in Hc. lia.
Qed.

(** ** The lifecycle flag *)

Lemma StartWorkers_running (b : redisBroker) (ws : WorkersList) :
  running b <> 0 -> StartWorkers b ws = (b, [], Some ErrClosed).
Proof.
  intros Hr. unfold StartWorkers, CompareAndSwapUint32.
  destruct (running b =? 0) eqn:E; [apply Z.eqb_eq in E; contradiction|].
  reflexivity.
Qed.

Lemma StartWorkers_flag (b : redisBroker) (ws : WorkersList) :
  forall b' tr e,
    StartWorkers b ws = (b', tr, e) ->
    (running b = 0 /\ running b' = 1) \/
    (running b <> 0 /\ b' = b /\ e = Some ErrClosed).
Proof.
  intros b' tr e H. unfold StartWorkers, CompareAndSwapUint32 in H.
  destruct (running b =? 0) eqn:E; simpl in H.
  - left. apply Z.eqb_eq in E. split; [exact E|].
    destruct (startLoop ws (set_running b 1) []) as [[b1 tr1] e1] eqn:HL.
    apply startLoop_running in HL. simpl in HL.
    destruct e1; inversion H; subst; exact HL.
  - right. apply Z.eqb_neq in E. inversion H; subst. auto.
Qed.

Lemma StartWorkers_idle_all_start (b : redisBroker) (ws : WorkersList) :
  running b = 0 -> all_start ws ->
  exists b' tr, StartWorkers b ws = (b', tr, None) /\ running b' = 1.
Proof.
  intros Hr Hall. unfold StartWorkers, CompareAndSwapUint32.
  rewrite Hr. simpl.
  destruct (startLoop_all_start ws Hall (set_running b 1) [])
    as (b1 & tr1 & HL).
  rewrite HL. eexists; eexists; split; [reflexivity|].
  apply startLoop_running in HL. exact HL.
Qed.

Lemma ShutdownWorkers_flag (b : redisBroker) (ctx : Context) (sch : Schedule) :
  forall b' tr e,
    ShutdownWorkers b ctx sch = (b', tr, e) ->
    (running b = 1 /\ b' = set_running b 0) \/
    (running b <> 1 /\ b' = b /\ tr = [] /\ e = Some ErrClosed).
Proof.
  intros b' tr e H. unfold ShutdownWorkers, CompareAndSwapUint32 in H.
  destruct (running b =? 1) eqn:E; simpl in H.
  - left. apply Z.eqb_eq in E. split; [exact E|].
    destruct (len (workers b) =? 0); [inversion H; reflexivity|].
    destruct (waitClosed ctx sch (Datatypes.length (workers b)) 0)
      as [tr1 [|]]; [|inversion H; reflexivity].
    destruct (collectErrs _ None) as [tr3 errm].
    inversion H; reflexivity.
  - right. apply Z.eqb_neq in E. inversion H; subst. auto.
Qed.

(** ** StartWorkers *)

Lemma StartWorkers_ok_inv (b : redisBroker) (ws : WorkersList) :
  forall b' tr,
    StartWorkers b ws = (b', tr, None) ->
    running b = 0 /\
    exists tr0 extra,
      startLoop ws (set_running b 1) [] = (b', tr0, None) /\
      tr = tr0 ++ extra /\ pollLoops extra = [] /\ started extra = [].
Proof.
  intros b' tr H. unfold StartWorkers, CompareAndSwapUint32 in H.
  destruct (running b =? 0) eqn:E; simpl in H; [|discriminate].
  apply Z.eqb_eq in E. split; [exact E|].
  destruct (startLoop ws (set_running b 1) []) as [[b1 tr1] [err|]];
    [discriminate|].
  inversion H; subst b1. exists tr1.
  destruct (len (workers b') >? 0); simpl.
  - destruct (NbWorkers >? 0).
    + eexists. rewrite <- app_assoc. repeat split; reflexivity.
    + eexists. repeat split; reflexivity.
  - exists []. rewrite app_nil_r. repeat split; reflexivity.
Qed.

(** C9.  After a successful [StartWorkers], the registered types are the
    former ones followed by the name of every entry of the list, entries of
    concurrency 0 (or less) included; a pool is created and started, and a
    poll loop spawned on ["j/" + worker_type], for exactly the entries of
    concurrency greater than 0, in order; [WorkersTypes] returns all the
    registered names. *)
Theorem StartWorkers_registers (b : redisBroker) (ws : WorkersList) :
  forall b' tr,
    StartWorkers b ws = (b', tr, None) ->
    workersTypes b' = workersTypes b ++ map WorkerType ws /\
    workers b' = workers b ++ map NewWorker (filter has_slots ws) /\
    started tr = map NewWorker (filter has_slots ws) /\
    pollLoops tr =
      map (fun c => ("j/" ++ WorkerType c)%string) (filter has_slots ws) /\
    WorkersTypes b' = workersTypes b ++ map WorkerType ws.
Proof.
  intros b' tr H.
  destruct (StartWorkers_ok_inv b ws b' tr H)
    as (_ & tr0 & extra & HL & -> & Hp & Hs).
  apply startLoop_ok in HL. simpl in HL.
  destruct HL as (H1 & H2 & H3 & H4).
  rewrite started_app, pollLoops_app, Hp, Hs, H3, H4, !app_nil_r.
  unfold WorkersTypes. auto.
Qed.

(** C1 (amended).  The flag has two values.  Once [StartWorkers] has
    succeeded the broker is running and every further [StartWorkers] fails
    with [ErrClosed]; a [ShutdownWorkers] called then puts the flag back to 0,
    so that a later [StartWorkers] passes the guard, runs the start loop again
    and, when its pools start, succeeds and leaves the broker running. *)
Theorem StartWorkers_after_shutdown (b : redisBroker) (ws : WorkersList) :
  forall b1 tr1,
    StartWorkers b ws = (b1, tr1, None) ->
    running b1 = 1 /\
    (forall ws', StartWorkers b1 ws' = (b1, [], Some ErrClosed)) /\
    (forall ctx sch b2 tr2 e2,
        ShutdownWorkers b1 ctx sch = (b2, tr2, e2) ->
        running b2 = 0 /\
        forall ws', all_start ws' ->
          exists b3 tr3,
            StartWorkers b2 ws' = (b3, tr3, None) /\ running b3 = 1).
Proof.
  intros b1 tr1 H.
  assert (Hr1 : running b1 = 1).
  { destruct (StartWorkers_flag b ws b1 tr1 None H) as [[_ Hr]|(_ & _ & Hc)];
      [exact Hr | discriminate]. }
  split; [exact Hr1|]. split.
  - intros ws'. apply StartWorkers_running. lia.
  - intros ctx sch b2 tr2 e2 HS.
    assert (Hr2 : running b2 = 0).
    { destruct (ShutdownWorkers_flag b1 ctx sch b2 tr2 e2 HS)
        as [[_ ->]|(Hn & _)]; [reflexivity | contradiction]. }
    split; [exact Hr2|].
    intros ws' Hall. apply StartWorkers_idle_all_start; assumption.
Qed.

(** ** ShutdownWorkers *)

Lemma count_app (p : event -> bool) (t1 t2 : trace) :
  count p (t1 ++ t2) = (count p t1 + count p t2)%nat.
Proof. unfold count. rewrite filter_app, length_app. reflexivity. Qed.

Lemma count_cons (p : event -> bool) (x : event) (t : trace) :
  count p (x :: t) = ((if p x then 1 else 0) + count p t)%nat.
Proof. unfold count. simpl. destruct (p x); reflexivity. Qed.

Lemma count_nil (p : event -> bool) : count p [] = O.
Proof. reflexivity. Qed.

(** Split the count of a trace along its appends and conses. *)
Ltac count_split :=
  cbn [app]; rewrite ?count_app, ?count_cons, ?count_app, ?count_cons, ?count_nil.

Lemma count_repeat_RecvClosed (n : nat) :
  count is_RecvClosed (repeat EvRecvClosed n) = n.
Proof.
  unfold count. induction n as [|n IH]; simpl; [reflexivity|].
  rewrite IH. reflexivity.
Qed.

Lemma count_zero_no_member (p : event -> bool) (tr pre post : trace) (x : event) :
  count p tr = O -> tr = pre ++ x :: post -> p x = true -> False.
Proof.
  intros Hc -> Hx. rewrite count_app in Hc. unfold count in Hc.
  simpl in Hc. rewrite Hx in Hc. simpl in Hc. lia.
Qed.

Lemma split_after_prefix (p : event -> bool) (A : trace) :
  forall B pre x post,
    A ++ B = pre ++ x :: post ->
    (forall a, In a A -> p a = false) -> p x = true ->
    exists mid, pre = A ++ mid /\ B = mid ++ x :: post.
Proof.
  induction A as [|a A IH]; intros B pre x post H HA Hx.
  - exists pre. split; [reflexivity | exact H].
  - destruct pre as [|y pre]; simpl in H; inversion H; subst.
    + rewrite (HA x) in Hx by (left; reflexivity). discriminate.
    + destruct (IH B pre x post H2) as (mid & -> & HB).
      * intros a' Hin. apply HA. right. exact Hin.
      * exact Hx.
      * exists mid. split; [reflexivity | exact HB].
Qed.

Lemma waitClosed_cases (ctx : Context) (sch : Schedule) (n : nat) :
  forall i,
    (waitClosed ctx sch n i = (repeat EvRecvClosed n, true) /\
     forall k, (k < n)%nat -> select_at sch (i + k) = ClosedToken) \/
    (exists k, (k < n)%nat /\ select_at sch (i + k) = CtxDone /\
       waitClosed ctx sch n i =
         (repeat EvRecvClosed k ++
            [EvPrintln [AStr "failed:"; AErr (ctx_Err ctx)]], false)).
Proof.
  induction n as [|n IH]; intros i; simpl.
  - left. split; [reflexivity | intros k Hk; lia].
  - destruct (select_at sch i) eqn:Hs.
    + right. exists O. rewrite Nat.add_0_r.
      split; [lia|]. split; [congruence | reflexivity].
    + destruct (IH (S i)) as [[HW Hall] | (k & Hk & Hd & HW)]; rewrite HW.
      * left. split; [reflexivity|].
        intros k Hk. destruct k as [|k].
        -- rewrite Nat.add_0_r. exact Hs.
        -- rewrite Nat.add_succ_r. rewrite <- Nat.add_succ_l.
           apply Hall. lia.
      * right. exists (S k). split; [lia|]. split; [|reflexivity].
        rewrite Nat.add_succ_r. exact Hd.
Qed.

Lemma remove_nth_perm {A : Type} (l : list A) :
  forall k d, (k < List.length l)%nat ->
              Permutation (nth k l d :: remove_nth k l) l.
Proof.
  induction l as [|x l IH]; intros k d Hk; simpl in Hk; [lia|].
  destruct k as [|k]; simpl.
  - apply Permutation_refl.
  - eapply Permutation_trans; [apply perm_swap|].
    apply perm_skip. apply IH. lia.
Qed.

Lemma remove_nth_length {A : Type} (l : list A) :
  forall k, (k < List.length l)%nat ->
            S (List.length (remove_nth k l)) = List.length l.
Proof.
  induction l as [|x l IH]; intros k Hk; simpl in Hk; [lia|].
  destruct k as [|k]; simpl; [reflexivity|].
  rewrite IH by lia. reflexivity.
Qed.

Lemma recvOrder_perm (pick : nat -> nat) (n : nat) :
  forall i pending,
    List.length pending = n ->
    Permutation (recvOrder pick n i pending) pending.
Proof.
  induction n as [|n IH]; intros i pending Hlen.
  - destruct pending; [apply perm_nil | discriminate].
  - destruct pending as [|w0 rest]; [discriminate|].
    cbn [recvOrder].
    set (k := Nat.modulo (pick i) (List.length (w0 :: rest))).
    assert (Hk : (k < List.length (w0 :: rest))%nat).
    { apply Nat.mod_upper_bound. simpl. lia. }
    eapply Permutation_trans; [|apply (remove_nth_perm (w0 :: rest) k w0 Hk)].
    apply perm_skip. apply IH.
    pose proof (remove_nth_length (w0 :: rest) k Hk) as HL.
    rewrite Hlen in HL. lia.
Qed.

Lemma collectErrs_trace (received : list Worker) :
  forall errm,
    fst (collectErrs received errm) =
    map (fun w => EvRecvErr (worker_Shutdown w)) received.
Proof.
  induction received as [|w rest IH]; intros errm; simpl; [reflexivity|].
  specialize (IH (match worker_Shutdown w with
                  | Some e => Some (multierror_Append errm e)
                  | None => errm
                  end)).
  destruct (collectErrs rest _) as [tr r]. simpl in *. rewrite IH. reflexivity.
Qed.

Lemma shutdown_errors_quiet (ws : list Worker) :
  forallb quiet ws = true -> shutdown_errors ws = [].
Proof.
  induction ws as [|w rest IH]; simpl; [reflexivity|].
  unfold quiet at 1. intros H. apply andb_true_iff in H. destruct H as [Hw Hr].
  destruct (worker_Shutdown w); [discriminate|]. simpl. apply IH. exact Hr.
Qed.

Lemma collectErrs_result (received : list Worker) :
  forall errm,
    snd (collectErrs received errm) =
    if forallb quiet received then errm
    else Some (ErrMulti (entries_of errm ++ shutdown_errors received)).
Proof.
  induction received as [|w rest IH]; intros errm; simpl; [reflexivity|].
  specialize (IH (match worker_Shutdown w with
                  | Some e => Some (multierror_Append errm e)
                  | None => errm
                  end)).
  destruct (collectErrs rest _) as [tr r]. simpl in *. rewrite IH.
  unfold quiet at 2.
  destruct (worker_Shutdown w) as [e|]; simpl.
  - destruct (forallb quiet rest) eqn:Hq.
    + rewrite (shutdown_errors_quiet rest Hq), app_nil_r.
      destruct errm; reflexivity.
    + destruct errm; simpl; rewrite <- ?app_assoc; reflexivity.
  - reflexivity.
Qed.

Lemma count_map_GoShutdown (p : event -> bool) (ws : list Worker) :
  (forall w, p (EvGoShutdown w) = false) ->
  count p (map EvGoShutdown ws) = O.
Proof.
  intros Hp. unfold count. induction ws as [|w rest IH]; simpl; [reflexivity|].
  rewrite Hp. exact IH.
Qed.

Lemma count_map_RecvErr (p : event -> bool) (ws : list Worker) :
  (forall e, p (EvRecvErr e) = false) ->
  count p (map (fun w => EvRecvErr (worker_Shutdown w)) ws) = O.
Proof.
  intros Hp. unfold count. induction ws as [|w rest IH]; simpl; [reflexivity|].
  rewrite Hp. exact IH.
Qed.

Lemma count_repeat_other (p : event -> bool) (n : nat) :
  p EvRecvClosed = false -> count p (repeat EvRecvClosed n) = O.
Proof.
  intros Hp. unfold count. induction n as [|n IH]; simpl; [reflexivity|].
  rewrite Hp. exact IH.
Qed.

Lemma ShutdownWorkers_shape (b : redisBroker) (ctx : Context) (sch : Schedule) :
  running b = 1 -> workers b <> [] ->
  let n := List.length (workers b) in
  let received := recvOrder (errs_pick sch) n 0 (workers b) in
  ((forall k, (k < n)%nat -> select_at sch k = ClosedToken) /\
   ShutdownWorkers b ctx sch =
     (set_running b 0,
      [EvPrint [AStr "  shutting down redis broker..."]] ++
      repeat EvRecvClosed n ++
      map EvGoShutdown (workers b) ++
      map (fun w => EvRecvErr (worker_Shutdown w)) received ++
      [verdict_line (snd (collectErrs received None))] ++ [EvClientClose],
      snd (collectErrs received None))) \/
  (exists k, (k < n)%nat /\ select_at sch k = CtxDone /\
     ShutdownWorkers b ctx sch =
       (set_running b 0,
        [EvPrint [AStr "  shutting down redis broker..."]] ++
        (repeat EvRecvClosed k ++ [failed_line ctx]) ++ [EvClientClose],
        Some (ctx_Err ctx))).
Proof.
  intros Hr Hw n received.
  unfold ShutdownWorkers, CompareAndSwapUint32. rewrite Hr.
  change (1 =? 1) with true. cbv iota beta. simpl negb. cbv iota.
  simpl workers.
  assert (Hlen : (len (workers b) =? 0) = false).
  { apply Z.eqb_neq. unfold len. destruct (workers b); [contradiction|].
    simpl. lia. }
  rewrite Hlen.
  destruct (waitClosed_cases ctx sch n 0) as [[HW Hall] | (k & Hk & Hd & HW)];
    fold n; rewrite HW.
  - left. split; [exact Hall|].
    fold received.
    pose proof (collectErrs_trace received None) as Ht.
    destruct (collectErrs received None) as [tr3 errm]. simpl in *. subst tr3.
    destruct errm; reflexivity.
  - right. exists k. repeat split; assumption.
Qed.

Lemma forallb_quiet_iff (ws : list Worker) :
  forallb quiet ws = true <-> (forall w, In w ws -> worker_Shutdown w = None).
Proof.
  rewrite forallb_forall. unfold quiet.
  split; intros H w Hin; specialize (H w Hin);
    destruct (worker_Shutdown w); simpl in *; congruence.
Qed.

(** C8 (amended).  A [ShutdownWorkers] on a running broker that has at least
    one pool closes the queue client exactly once, as the last thing it does,
    whether the poll loops all signalled or the context expired first. *)
Theorem ShutdownWorkers_closes_client_once
    (b : redisBroker) (ctx : Context) (sch : Schedule) :
  running b = 1 -> workers b <> [] ->
  forall b' tr e,
    ShutdownWorkers b ctx sch = (b', tr, e) ->
    count is_ClientClose tr = 1%nat /\
    exists tr', tr = tr' ++ [EvClientClose].
Proof.
  intros Hr Hw b' tr e H.
  destruct (ShutdownWorkers_shape b ctx sch Hr Hw) as [[_ HS] | (k & _ & _ & HS)];
    rewrite HS in H; symmetry in H; triple_eq H.
  - split.
    + count_split.
      rewrite count_repeat_other by reflexivity.
      rewrite count_map_GoShutdown by reflexivity.
      rewrite count_map_RecvErr by reflexivity.
      destruct (snd (collectErrs _ None)); reflexivity.
    + eexists. rewrite !app_assoc. reflexivity.
  - split.
    + count_split.
      rewrite count_repeat_other by reflexivity. reflexivity.
    + eexists. rewrite !app_assoc. reflexivity.
Qed.

(** C3.  In a [ShutdownWorkers] on a running broker with at least one pool:
    whatever precedes the invocation of a pool's [Shutdown] contains exactly
    one receive on [closed] per pool; if a [select] of the waiting loop takes
    the context's case, the context error is returned and no pool's
    [Shutdown] is invoked; otherwise [Shutdown] is invoked on every pool and
    the result is nil when no pool reports an error, and else one multi-error
    whose entries are the errors the pools reported. *)
Theorem ShutdownWorkers_two_phases
    (b : redisBroker) (ctx : Context) (sch : Schedule) :
  running b = 1 -> workers b <> [] ->
  forall b' tr e,
    ShutdownWorkers b ctx sch = (b', tr, e) ->
    let n := List.length (workers b) in
    (forall pre w post,
        tr = pre ++ EvGoShutdown w :: post -> count is_RecvClosed pre = n) /\
    ((exists i, (i < n)%nat /\ select_at sch i = CtxDone) ->
       e = Some (ctx_Err ctx) /\ count is_GoShutdown tr = O) /\
    ((forall i, (i < n)%nat -> select_at sch i = ClosedToken) ->
       count is_RecvClosed tr = n /\
       filter is_GoShutdown tr = map EvGoShutdown (workers b) /\
       ((forall w, In w (workers b) -> worker_Shutdown w = None) ->
          e = None) /\
       ((exists w, In w (workers b) /\ worker_Shutdown w <> None) ->
          exists es, e = Some (ErrMulti es) /\
                     Permutation es (shutdown_errors (workers b)))).
Proof.
  intros Hr Hw b' tr e H n.
  pose proof (recvOrder_perm (errs_pick sch) n 0 (workers b) eq_refl) as Hperm.
  destruct (ShutdownWorkers_shape b ctx sch Hr Hw)
    as [[Hall HS] | (k & Hk & Hd & HS)];
    rewrite HS in H; symmetry in H; triple_eq H; clear HS; fold n.
  - set (received := recvOrder (errs_pick sch) n 0 (workers b)) in *.
    assert (HcB : count is_RecvClosed
                    (map EvGoShutdown (workers b) ++
                     map (fun w => EvRecvErr (worker_Shutdown w)) received ++
                     [verdict_line (snd (collectErrs received None))] ++
                     [EvClientClose]) = O).
    { rewrite !count_app, count_map_GoShutdown, count_map_RecvErr
        by reflexivity.
      destruct (snd (collectErrs received None)); reflexivity. }
    split; [|split].
    + intros pre w post Heq.
      rewrite app_assoc in Heq.
      destruct (split_after_prefix is_GoShutdown _ _ pre (EvGoShutdown w) post Heq)
        as (mid & -> & HB).
      * intros a Hin. apply in_app_or in Hin. destruct Hin as [[<-|[]]|Hin].
        -- reflexivity.
        -- apply repeat_spec in Hin. subst a. reflexivity.
      * reflexivity.
      * rewrite HB, count_app in HcB.
        rewrite !count_app, count_repeat_RecvClosed.
        change (count is_RecvClosed [EvPrint [AStr "  shutting down redis broker..."]])
          with O. lia.
    + intros (i & Hi & Hc). rewrite (Hall i Hi) in Hc. discriminate.
    + intros _. split; [|split; [|split]].
      * rewrite app_assoc, count_app, HcB, count_app, count_repeat_RecvClosed.
        change (count is_RecvClosed [EvPrint [AStr "  shutting down redis broker..."]])
          with O. lia.
      * rewrite !filter_app. simpl.
        assert (H1 : filter is_GoShutdown (repeat EvRecvClosed n) = []).
        { clear. induction n; simpl; auto. }
        assert (H2 : forall l, filter is_GoShutdown
                       (map (fun w => EvRecvErr (worker_Shutdown w)) l) = []).
        { induction l; simpl; auto. }
        assert (H3 : forall l, filter is_GoShutdown (map EvGoShutdown l)
                               = map EvGoShutdown l).
        { induction l; simpl; congruence. }
        rewrite H1, H2, H3.
        destruct (snd (collectErrs received None)); simpl;
          rewrite app_nil_r; reflexivity.
      * intros Hquiet. rewrite collectErrs_result.
        replace (forallb quiet received) with true; [reflexivity|].
        symmetry. apply forallb_quiet_iff. intros w Hin. apply Hquiet.
        eapply Permutation_in; [exact Hperm | exact Hin].
      * intros (w & Hin & Hne). rewrite collectErrs_result.
        destruct (forallb quiet received) eqn:Hq.
        -- exfalso. apply Hne.
           apply (proj1 (forallb_quiet_iff received) Hq).
           eapply Permutation_in; [apply Permutation_sym; exact Hperm | exact Hin].
        -- eexists. split; [reflexivity|]. simpl.
           unfold shutdown_errors. apply Permutation_flat_map. exact Hperm.
  - assert (Hg : count is_GoShutdown
                   ([EvPrint [AStr "  shutting down redis broker..."]] ++
                    (repeat EvRecvClosed k ++ [failed_line ctx]) ++
                    [EvClientClose]) = O).
    { rewrite !count_app, count_repeat_other by reflexivity. reflexivity. }
    split; [|split].
    + intros pre w post Heq. exfalso.
      eapply count_zero_no_member; [exact Hg | exact Heq | reflexivity].
    + intros _. split; [reflexivity | exact Hg].
    + intros Hall. rewrite (Hall k Hk) in Hd. discriminate.
Qed.

(** ** pollLoop *)

Lemma cut_None_iff (sep : ascii) (s : string) :
  cut sep s = None <-> ~ In sep (list_ascii_of_string s).
Proof.
  induction s as [|c s IH]; simpl.
  - split; [intros _ [] | reflexivity].
  - destruct (Ascii.eqb c sep) eqn:E.
    + apply Ascii.eqb_eq in E. subst c.
      split; [discriminate | intros H; exfalso; apply H; left; reflexivity].
    + apply Ascii.eqb_neq in E.
      destruct (cut sep s) as [[a b]|].
      * split; [discriminate|].
        intros H. exfalso. apply H. right.
        destruct (In_dec ascii_dec sep (list_ascii_of_string s)) as [Hin|Hn];
          [exact Hin|]. apply IH in Hn. discriminate.
      * split; [|reflexivity]. intros _ [Hc|Hin]; [contradiction|].
        apply (proj1 IH); [reflexivity | exact Hin].
Qed.

Lemma SplitN2_length (s : string) (sep : ascii) :
  List.length (SplitN2 s sep) = 2%nat <-> In sep (list_ascii_of_string s).
Proof.
  unfold SplitN2. destruct (cut sep s) as [[a b]|] eqn:E; simpl.
  - split; [intros _ | reflexivity].
    destruct (In_dec ascii_dec sep (list_ascii_of_string s)) as [Hin|Hn];
      [exact Hin|]. apply cut_None_iff in Hn. congruence.
  - split; [discriminate|]. intros Hin. apply cut_None_iff in E. contradiction.
Qed.

Lemma pollBody_outcome (key : string) (ch : chan) (t : Tick) :
  exists rest,
    pollBody key ch t =
      EvBRPop redisBRPopTimeout
        (fst (pollKeys key (t_draw t))) (snd (pollKeys key (t_draw t))) :: rest
    /\ outcome ch t rest.
Proof.
  unfold pollBody.
  destruct (pollKeys key (t_draw t)) as [k0 k1]. simpl fst; simpl snd.
  destruct (t_brpop t) as [results err] eqn:Hb.
  destruct (is_err err || (len results <? 2)) eqn:Hf.
  - eexists. split; [reflexivity|]. apply PopFailed. rewrite Hb. exact Hf.
  - apply orb_false_iff in Hf. destruct Hf as [He Hl].
    destruct err; [discriminate|].
    apply Z.ltb_ge in Hl. unfold len in Hl.
    destruct results as [|k [|v more]]; simpl in Hl; try lia.
    cbn [nth].
    destruct (len_string k <? len_string redisPrefix) eqn:Hk.
    + eexists. split; [reflexivity|].
      apply Z.ltb_lt in Hk. unfold len_string in Hk. simpl in Hk.
      eapply InvalidKey; [exact Hb | lia].
    + apply Z.ltb_ge in Hk. unfold len_string in Hk. simpl in Hk.
      unfold SplitN2. destruct (cut "/" v) as [[d i]|] eqn:Hc.
      * destruct (t_get t d i) as [err|job] eqn:Hg.
        -- eexists. split; [reflexivity|].
           eapply NotFound; [exact Hb | lia | exact Hc | exact Hg].
        -- eexists. split; [reflexivity|].
           eapply Delivered; [exact Hb | lia | exact Hc | exact Hg].
      * eexists. split; [reflexivity|].
        eapply InvalidVal; [exact Hb | lia | exact Hc].
Qed.

Lemma outcome_counts (ch : chan) (t : Tick) (rest : trace) :
  outcome ch t rest ->
  count is_BRPop rest = O /\ count is_SendClosed rest = O /\
  count is_LPush rest = O /\ pops rest = [].
Proof. intros H; destruct H; repeat split; reflexivity. Qed.

Lemma pollLoop_step (key : string) (ch : chan) (t : Tick) (ts : list Tick) :
  t_running t <> 0 ->
  pollLoop key ch (t :: ts) =
    (pollBody key ch t ++ fst (pollLoop key ch ts), snd (pollLoop key ch ts)).
Proof.
  intros Hr. simpl. destruct (t_running t =? 0) eqn:E.
  - apply Z.eqb_eq in E. contradiction.
  - destruct (pollLoop key ch ts). reflexivity.
Qed.

Lemma pollLoop_exit_head (key : string) (ch : chan) (t : Tick) (ts : list Tick) :
  t_running t = 0 -> pollLoop key ch (t :: ts) = ([EvSendClosed], true).
Proof. intros Hr. simpl. rewrite Hr. reflexivity. Qed.

Lemma pops_app (t1 t2 : trace) : pops (t1 ++ t2) = pops t1 ++ pops t2.
Proof.
  induction t1 as [|e t1 IH]; simpl; [reflexivity|].
  destruct e; simpl; rewrite ?IH; reflexivity.
Qed.

(** C2.  The blocking pops of a poll loop on ["j/" + worker_type] are, one
    per iteration and in order, over the pair (manual lane, normal lane),
    except at the iterations whose draw is 0, where the pair is (normal lane,
    manual lane); of the three values of the draw, exactly one swaps. *)
Theorem pollLoop_key_order (wt : string) (ch : chan) (ticks : list Tick) :
  let normal := ("j/" ++ wt)%string in
  let manual := ("j/" ++ wt ++ "/p0")%string in
  pops (fst (pollLoop (redisPrefix ++ wt) ch ticks)) =
    map (fun t => if t_draw t =? 0 then (normal, manual) else (manual, normal))
        (iterations ticks) /\
  map (pollKeys (redisPrefix ++ wt)) [0; 1; 2] =
    [(normal, manual); (manual, normal); (manual, normal)].
Proof.
  intros normal manual. split; [|reflexivity].
  induction ticks as [|t ts IH]; [reflexivity|].
  cbn [iterations]. destruct (t_running t =? 0) eqn:E.
  - apply Z.eqb_eq in E. rewrite pollLoop_exit_head by exact E. reflexivity.
  - apply Z.eqb_neq in E. rewrite pollLoop_step by exact E.
    cbn [fst]. rewrite pops_app, IH.
    destruct (pollBody_outcome (redisPrefix ++ wt) ch t) as (rest & -> & Ho).
    apply outcome_counts in Ho. destruct Ho as (_ & _ & _ & Hp).
    cbn [pops app]. rewrite Hp. cbn [app map].
    f_equal. unfold pollKeys. destruct (t_draw t =? 0); reflexivity.
Qed.

Lemma outcome_popped (ch : chan) (t : Tick) (rest : trace) :
  forall k v more,
    t_brpop t = (k :: v :: more, None) ->
    outcome ch t rest ->
    ((String.length k < 2)%nat /\ rest = [EvWarnf "Invalid key %s" [AStr k]]) \/
    ((2 <= String.length k)%nat /\ cut "/" v = None /\
     rest = [EvWarnf "Invalid val %s" [AStr v]]) \/
    (exists d i, (2 <= String.length k)%nat /\ cut "/" v = Some (d, i) /\
       ((exists err, t_get t d i = inl err /\
           rest = [EvGet d i;
                   EvWarnf "Cannot find job %s on domain %s: %s"
                     [AStr i; AStr d; AErr err]]) \/
        (exists job, t_get t d i = inr job /\
           rest = [EvGet d i; EvSendJob ch job]))).
Proof.
  intros k v more Hb Ho. destruct Ho as [Hf|k' v' m' Hb' Hk|k' v' m' Hb' Hk Hc
                                        |k' v' m' d i err Hb' Hk Hc Hg
                                        |k' v' m' d i job Hb' Hk Hc Hg].
  - rewrite Hb in Hf. cbn [snd fst is_err orb] in Hf.
    apply Z.ltb_lt in Hf. unfold len in Hf. simpl List.length in Hf. lia.
  - rewrite Hb in Hb'. injection Hb' as <- <- <-. left. auto.
  - rewrite Hb in Hb'. injection Hb' as <- <- <-. right. left. auto.
  - rewrite Hb in Hb'. injection Hb' as <- <- <-. right. right.
    exists d, i. repeat split; [exact Hk | exact Hc |]. left. eauto.
  - rewrite Hb in Hb'. injection Hb' as <- <- <-. right. right.
    exists d, i. repeat split; [exact Hk | exact Hc |]. right. eauto.
Qed.

(** C6 (amended).  In an iteration of a poll loop (the flag read at its head
    is not 0) the loop goes on to the next iteration, whatever the iteration
    met.  A pop that returns an error or fewer than 2 fields is followed by a
    sleep of 100 ms and nothing else.  When the pop returns a key and a
    payload, the checks run in this order: a key shorter than ["j/"] is
    itself logged (["Invalid key %s"], the payload is not); else a payload
    without ["/"] is logged (["Invalid val %s"]); else, when the store facade
    fails on the (domain, job_id) the payload splits into, the job
    identifier, the domain and the error are logged after the one call of
    [Get].  In each of these three cases that warning is all the iteration
    does after the pop: no sleep, nothing sent on the feed channel, nothing
    pushed onto a queue. *)
Theorem pollLoop_drops_bad_payloads
    (key : string) (ch : chan) (t : Tick) (ts : list Tick) :
  t_running t <> 0 ->
  let body := pollBody key ch t in
  let pop :=
    EvBRPop redisBRPopTimeout
      (fst (pollKeys key (t_draw t))) (snd (pollKeys key (t_draw t))) in
  pollLoop key ch (t :: ts) =
    (body ++ fst (pollLoop key ch ts), snd (pollLoop key ch ts)) /\
  ((snd (t_brpop t) <> None \/ (List.length (fst (t_brpop t)) < 2)%nat) ->
     body = [pop; EvSleep (100 * Millisecond)]) /\
  (forall k v more,
      t_brpop t = (k :: v :: more, None) ->
      ((String.length k < String.length "j/")%nat ->
         body = [pop; EvWarnf "Invalid key %s" [AStr k]]) /\
      ((String.length "j/" <= String.length k)%nat ->
       ~ In "/"%char (list_ascii_of_string v) ->
         body = [pop; EvWarnf "Invalid val %s" [AStr v]]) /\
      (forall d i err,
          (String.length "j/" <= String.length k)%nat ->
          SplitN2 v "/" = [d; i] -> t_get t d i = inl err ->
          body = [pop; EvGet d i;
                  EvWarnf "Cannot find job %s on domain %s: %s"
                    [AStr i; AStr d; AErr err]]) /\
      ((String.length k < String.length "j/")%nat \/
       ~ In "/"%char (list_ascii_of_string v) \/
       (exists d i err, SplitN2 v "/" = [d; i] /\ t_get t d i = inl err) ->
       count is_Warnf body = 1%nat /\ count is_Sleep body = O /\
       count is_SendJob body = O /\ count is_LPush body = O)).
Proof.
  intros Hr body pop. split; [apply pollLoop_step; exact Hr|].
  destruct (pollBody_outcome key ch t) as (rest & Hbody & Ho).
  fold body in Hbody. fold pop in Hbody. rewrite Hbody. split.
  - intros Hbad. f_equal.
    destruct Ho as [Hf|k v m Hb Hk|k v m Hb Hk Hc
                   |k v m d i err Hb Hk Hc Hg|k v m d i job Hb Hk Hc Hg];
      [reflexivity| | | |];
      rewrite Hb in Hbad; simpl in Hbad;
      (destruct Hbad as [Hbad|Hbad]; [congruence | lia]).
  - intros k v more Hb.
    pose proof (outcome_popped ch t rest k v more Hb Ho) as Hcases.
    split; [|split; [|split]].
    + intros Hshort. simpl in Hshort.
      destruct Hcases
        as [[_ ->] | [(Hk & _) | (d & i & Hk & _)]];
        [reflexivity | lia | lia].
    + intros Hlong Hn. simpl in Hlong. apply cut_None_iff in Hn.
      destruct Hcases
        as [[Hk _] | [(_ & _ & ->) | (d & i & _ & Hc & _)]];
        [lia | reflexivity | congruence].
    + intros d i err Hlong Hsp Hg. simpl in Hlong. unfold SplitN2 in Hsp.
      destruct Hcases
        as [[Hk _] | [(_ & Hc & _) | (d' & i' & _ & Hc & Hres)]];
        [lia | rewrite Hc in Hsp; discriminate |].
      rewrite Hc in Hsp. injection Hsp as <- <-.
      destruct Hres as [(err' & Hg' & ->) | (job & Hg' & _)];
        [|congruence].
      rewrite Hg in Hg'. injection Hg' as <-. reflexivity.
    + intros Hbad.
      destruct Hcases
        as [[Hk ->] | [(Hk & Hc & ->)
                      | (d & i & Hk & Hc & [(err & Hg & ->) | (job & Hg & ->)])]];
        try (repeat split; reflexivity).
      exfalso. destruct Hbad as [Hs | [Hn | (d' & i' & err & Hsp & Hg')]].
      * simpl in Hs. lia.
      * apply cut_None_iff in Hn. congruence.
      * unfold SplitN2 in Hsp. rewrite Hc in Hsp.
        injection Hsp as <- <-. congruence.
Qed.



(** ** PushJob *)

Lemma IsInArray_In (s : string) (arr : list string) :
  IsInArray s arr = true <-> In s arr.
Proof.
  induction arr as [|x rest IH]; simpl.
  - split; [discriminate | intros []].
  - destruct (String.eqb s x) eqn:E.
    + apply String.eqb_eq in E. split; [intros _; left; congruence | reflexivity].
    + apply String.eqb_neq in E. rewrite IH.
      split; [intros H; right; exact H | intros [H|H]; [congruence | exact H]].
Qed.

Lemma PushJob_accepted_eq (b : redisBroker) (req : JobRequest) :
  running b <> 0 -> In (req_WorkerType req) (workersTypes b) ->
  PushJob b req =
    let job := NewJob req in
    match job_Create job with
    | inl err => ([EvCreate job (inl err)], (None, Some err))
    | inr id =>
        let key :=
          if req_Manual req then ("j/" ++ req_WorkerType req ++ "/p0")%string
          else ("j/" ++ req_WorkerType req)%string in
        let val := (req_Domain req ++ "/" ++ id)%string in
        ([EvCreate job (inr id); EvLPush key val (client_LPush key val)],
         match client_LPush key val with
         | Some err => (None, Some err)
         | None => (Some (set_JobID job id), None)
         end)
    end.
Proof.
  intros Hr Hin. unfold PushJob.
  destruct (running b =? 0) eqn:E; [apply Z.eqb_eq in E; contradiction|].
  apply IsInArray_In in Hin. rewrite Hin. cbn [negb].
  destruct (job_Create (NewJob req)) as [err|id]; [reflexivity|].
  cbn [set_JobID NewJob Manual job_WorkerType Domain JobID].
  unfold redisPrefix, redisHighPrioritySuffix.
  destruct (req_Manual req); cbn zeta; cbn [append];
    match goal with
    | |- context [client_LPush ?k ?v] => destruct (client_LPush k v)
    end; reflexivity.
Qed.

(** C4.  On a broker whose flag holds one of its values: when the broker is
    not Running, [PushJob] returns [ErrClosed]; when it is Running and the
    worker type of the request is not among the registered names, [PushJob]
    returns [ErrUnknownWorker]; in both cases it returns no job and calls
    neither the store facade nor the queue client: no job is created and
    nothing is pushed. *)
Theorem PushJob_rejects (b : redisBroker) (req : JobRequest) :
  flag_ok (running b) ->
  (running b <> 1 -> PushJob b req = ([], (None, Some ErrClosed))) /\
  (running b = 1 -> ~ In (req_WorkerType req) (WorkersTypes b) ->
     PushJob b req = ([], (None, Some ErrUnknownWorker))) /\
  (running b <> 1 \/ ~ In (req_WorkerType req) (WorkersTypes b) ->
     persisted (fst (PushJob b req)) = [] /\
     enqueued (fst (PushJob b req)) = [] /\
     fst (PushJob b req) = [] /\
     fst (snd (PushJob b req)) = None).
Proof.
  intros Hflag.
  assert (Hclosed : running b <> 1 ->
                    PushJob b req = ([], (None, Some ErrClosed))).
  { intros Hn. destruct Hflag as [H0|H1]; [|contradiction].
    unfold PushJob. rewrite H0. reflexivity. }
  assert (Hunknown : running b = 1 ->
                     ~ In (req_WorkerType req) (WorkersTypes b) ->
                     PushJob b req = ([], (None, Some ErrUnknownWorker))).
  { intros H1 Hn. unfold PushJob. rewrite H1.
    destruct (IsInArray (req_WorkerType req) (workersTypes b)) eqn:E.
    - apply IsInArray_In in E. contradiction.
    - reflexivity. }
  split; [exact Hclosed|]. split; [exact Hunknown|].
  intros [Hn|Hn].
  - rewrite (Hclosed Hn). repeat split.
  - destruct Hflag as [H0|H1].
    + rewrite Hclosed by lia. repeat split.
    + rewrite (Hunknown H1 Hn). repeat split.
Qed.

(** C5.  For a request that is accepted (the broker runs and the worker type
    is registered), [PushJob] first calls [Create] on the job built from the
    request; if [Create] fails its error is returned and nothing is pushed;
    otherwise it left-pushes ["<domain>/<job_id>"] onto ["j/" + worker_type],
    or onto ["j/" + worker_type + "/p0"] for a manual request; it returns the
    error of the push if there is one, and else the persisted job. *)
Theorem PushJob_accepted (b : redisBroker) (req : JobRequest) :
  running b = 1 -> In (req_WorkerType req) (WorkersTypes b) ->
  let job := NewJob req in
  match job_Create job with
  | inl err =>
      PushJob b req = ([EvCreate job (inl err)], (None, Some err))
  | inr id =>
      let key :=
        if req_Manual req then ("j/" ++ req_WorkerType req ++ "/p0")%string
        else ("j/" ++ req_WorkerType req)%string in
      let val := (req_Domain req ++ "/" ++ id)%string in
      let job' := set_JobID job id in
      fst (PushJob b req) =
        [EvCreate job (inr id); EvLPush key val (client_LPush key val)] /\
      persisted (fst (PushJob b req)) = [job'] /\
      match client_LPush key val with
      | Some err => snd (PushJob b req) = (None, Some err)
      | None =>
          snd (PushJob b req) = (Some job', None) /\
          enqueued (fst (PushJob b req)) = [(key, val)]
      end
  end.
Proof.
  intros Hr Hin job.
  rewrite (PushJob_accepted_eq b req) by (try lia; exact Hin).
  fold job. cbv zeta.
  destruct (job_Create job) as [err|id]; [reflexivity|].
  cbn [fst snd persisted enqueued].
  destruct (client_LPush _ _); repeat split; reflexivity.
Qed.

(** C10.  When the request is accepted, [Create] succeeds and the left-push
    then fails, [PushJob] returns the error of the push and no job; the job
    stays in the store, with the identifier [Create] gave it: the failed push
    is the last call [PushJob] makes (nothing undoes the [Create]), and no
    payload has reached a queue. *)
Theorem PushJob_not_atomic
    (b : redisBroker) (req : JobRequest) (id : string) (err : error) :
  let key :=
    if req_Manual req then ("j/" ++ req_WorkerType req ++ "/p0")%string
    else ("j/" ++ req_WorkerType req)%string in
  let val := (req_Domain req ++ "/" ++ id)%string in
  running b = 1 -> In (req_WorkerType req) (WorkersTypes b) ->
  job_Create (NewJob req) = inr id ->
  client_LPush key val = Some err ->
  PushJob b req =
    ([EvCreate (NewJob req) (inr id); EvLPush key val (Some err)],
     (None, Some err)) /\
  persisted (fst (PushJob b req)) = [set_JobID (NewJob req) id] /\
  enqueued (fst (PushJob b req)) = [].
Proof.
  intros key val Hr Hin Hc Hp.
  rewrite (PushJob_accepted_eq b req) by (try lia; exact Hin).
  cbv zeta. rewrite Hc. fold key val. rewrite Hp.
  repeat split.
Qed.

(** The flag keeps to its two values. *)
Lemma flag_ok_new : flag_ok (running NewRedisBroker).
Proof. left; reflexivity. Qed.

Lemma flag_ok_StartWorkers (b : redisBroker) (ws : WorkersList) :
  flag_ok (running b) ->
  flag_ok (running (fst (fst (StartWorkers b ws)))).
Proof.
  intros Hf. destruct (StartWorkers b ws) as [[b' tr] e] eqn:H.
  destruct (StartWorkers_flag b ws b' tr e H) as [[_ H1]|(_ & -> & _)];
    [right; exact H1 | exact Hf].
Qed.

Lemma flag_ok_ShutdownWorkers (b : redisBroker) (ctx : Context) (sch : Schedule) :
  flag_ok (running b) ->
  flag_ok (running (fst (fst (ShutdownWorkers b ctx sch)))).
Proof.
  intros Hf. destruct (ShutdownWorkers b ctx sch) as [[b' tr] e] eqn:H.
  destruct (ShutdownWorkers_flag b ctx sch b' tr e H) as [[_ ->]|(_ & -> & _)];
    [left; reflexivity | exact Hf].
Qed.

(** ** Further properties of StartWorkers *)

Lemma slot_limits_app (t1 t2 : trace) :
  slot_limits (t1 ++ t2) = slot_limits t1 ++ slot_limits t2.
Proof.
  induction t1 as [|e t1 IH]; simpl; [reflexivity|].
  destruct e; simpl; rewrite ?IH; reflexivity.
Qed.

Lemma startLoop_slot_limits (ws : WorkersList) :
  forall b tr b' tr' e,
    startLoop ws b tr = (b', tr', e) -> slot_limits tr' = slot_limits tr.
Proof.
  induction ws as [|conf rest IH]; intros b tr b' tr' e H; simpl in H.
  - inversion H; reflexivity.
  - destruct (Concurrency conf <=? 0).
    + eapply IH; exact H.
    + destruct (worker_Start (NewWorker conf)).
      * inversion H; subst. rewrite slot_limits_app, app_nil_r. reflexivity.
      * apply IH in H. rewrite H, slot_limits_app, app_nil_r. reflexivity.
Qed.

Lemma startLoop_fail (ws : WorkersList) :
  forall b tr b' tr' err,
    startLoop ws b tr = (b', tr', Some err) ->
    exists pre conf post,
      ws = pre ++ conf :: post /\
      has_slots conf = true /\
      worker_Start (NewWorker conf) = Some err /\
      all_start pre /\
      workersTypes b' =
        workersTypes b ++ map WorkerType pre ++ [WorkerType conf] /\
      workers b' =
        workers b ++ map NewWorker (filter has_slots pre) ++ [NewWorker conf] /\
      pollLoops tr' =
        pollLoops tr ++
        map (fun c => (redisPrefix ++ WorkerType c)%string)
            (filter has_slots pre).
Proof.
  induction ws as [|conf rest IH]; intros b tr b' tr' err H; simpl in H.
  - discriminate.
  - destruct (Concurrency conf <=? 0) eqn:Hc.
    + assert (Hs : has_slots conf = false).
      { unfold has_slots. apply Z.ltb_ge. apply Z.leb_le in Hc. lia. }
      apply IH in H.
      destruct H as (pre & c & post & -> & Hsl & Hst & Hall & H1 & H2 & H3).
      exists (conf :: pre), c, post. simpl in H1, H2.
      split; [reflexivity|]. split; [exact Hsl|]. split; [exact Hst|].
      split.
      { intros c' [<-|Hin] Hs'; [congruence | apply Hall; assumption]. }
      simpl. rewrite Hs, H1, H2, H3, <- app_assoc. simpl. auto.
    + assert (Hs : has_slots conf = true).
      { unfold has_slots. apply Z.ltb_lt. apply Z.leb_gt in Hc. lia. }
      destruct (worker_Start (NewWorker conf)) as [e|] eqn:Hst.
      * inversion H; subst. exists [], conf, rest. simpl.
        rewrite pollLoops_app, !app_nil_r.
        repeat split; auto. intros c' [].
      * apply IH in H.
        destruct H as (pre & c & post & -> & Hsl & Hst' & Hall & H1 & H2 & H3).
        exists (conf :: pre), c, post. simpl in H1, H2.
        split; [reflexivity|]. split; [exact Hsl|]. split; [exact Hst'|].
        split.
        { intros c' [<-|Hin] Hs'; [exact Hst | apply Hall; assumption]. }
        simpl. rewrite Hs, H1, H2, H3, pollLoops_app.
        simpl. rewrite <- !app_assoc. simpl. auto.
Qed.

Lemma StartWorkers_err_inv (b : redisBroker) (ws : WorkersList) :
  forall b' tr err,
    running b = 0 ->
    StartWorkers b ws = (b', tr, Some err) ->
    startLoop ws (set_running b 1) [] = (b', tr, Some err).
Proof.
  intros b' tr err Hr H. unfold StartWorkers, CompareAndSwapUint32 in H.
  rewrite Hr in H. simpl in H.
  destruct (startLoop ws (set_running b 1) []) as [[b1 tr1] [e1|]];
    [|discriminate].
  exact H.
Qed.

(** X1.  When a pool fails to start, [StartWorkers] returns its error and
    stops there: the types up to the failing entry are registered, the later
    ones are not; the failing pool stays in [workers] but has no poll loop,
    so the broker holds one pool more than it has poll loops; the flag stays
    at Running. *)
Theorem StartWorkers_partial_failure
    (b : redisBroker) (ws : WorkersList) :
  forall b' tr err,
    running b = 0 ->
    StartWorkers b ws = (b', tr, Some err) ->
    exists pre conf post,
      ws = pre ++ conf :: post /\
      has_slots conf = true /\
      worker_Start (NewWorker conf) = Some err /\
      all_start pre /\
      running b' = 1 /\
      WorkersTypes b' =
        workersTypes b ++ map WorkerType pre ++ [WorkerType conf] /\
      workers b' =
        workers b ++ map NewWorker (filter has_slots pre) ++ [NewWorker conf] /\
      pollLoops tr =
        map (fun c => ("j/" ++ WorkerType c)%string) (filter has_slots pre) /\
      (List.length (workers b') =
         List.length (workers b) + List.length (pollLoops tr) + 1)%nat.
Proof.
  intros b' tr err Hr H.
  pose proof (StartWorkers_err_inv b ws b' tr err Hr H) as HL.
  pose proof (startLoop_running ws _ _ _ _ _ HL) as Hrun.
  destruct (startLoop_fail ws _ _ _ _ _ HL)
    as (pre & conf & post & Hws & Hs & Hst & Hall & H1 & H2 & H3).
  simpl in Hrun, H1, H2, H3.
  exists pre, conf, post. unfold WorkersTypes.
  repeat split; try assumption.
  rewrite H2, H3, !length_app, !length_map. simpl. lia.
Qed.

(** X2.  [setNbSlots] is called by [StartWorkers] only when it succeeds,
    the broker has at least one pool and the configured count is positive;
    it is then called once, with that count.  A failed start, a start on a
    running broker, a broker without pool or a count of 0 install no
    limit. *)
Theorem StartWorkers_slot_limit (b : redisBroker) (ws : WorkersList) :
  slot_limits (snd (fst (StartWorkers b ws))) =
    match snd (StartWorkers b ws) with
    | None =>
        if (0 <? len (workers (fst (fst (StartWorkers b ws))))) && (0 <? NbWorkers)
        then [NbWorkers] else []
    | Some _ => []
    end.
Proof.
  unfold StartWorkers, CompareAndSwapUint32.
  destruct (running b =? 0); simpl; [|reflexivity].
  destruct (startLoop ws (set_running b 1) []) as [[b1 tr1] [e1|]] eqn:HL;
    simpl.
  - apply startLoop_slot_limits in HL. exact HL.
  - apply startLoop_slot_limits in HL. simpl in HL.
    rewrite !Z.gtb_ltb.
    destruct (0 <? len (workers b1)); simpl.
    + destruct (0 <? NbWorkers);
        rewrite ?slot_limits_app, HL; reflexivity.
    + exact HL.
Qed.

(** X3.  After a successful [StartWorkers], [PushJob] accepts a request for
    the type of any entry of the list, entries of concurrency 0 included: it
    goes on to [Create]. *)
Theorem StartWorkers_then_PushJob
    (b : redisBroker) (ws : WorkersList) (req : JobRequest) :
  forall b' tr conf,
    StartWorkers b ws = (b', tr, None) ->
    In conf ws -> req_WorkerType req = WorkerType conf ->
    exists rest,
      fst (PushJob b' req) =
        EvCreate (NewJob req) (job_Create (NewJob req)) :: rest.
Proof.
  intros b' tr conf H Hin Ht.
  assert (Hr : running b' = 1).
  { destruct (StartWorkers_flag b ws b' tr None H) as [[_ Hr]|(_ & _ & Hc)];
      [exact Hr | discriminate]. }
  destruct (StartWorkers_ok_inv b ws b' tr H) as (_ & tr0 & extra & HL & _).
  apply startLoop_ok in HL. destruct HL as (Hty & _).
  assert (Hreg : In (req_WorkerType req) (workersTypes b')).
  { rewrite Hty, Ht. apply in_or_app. right. apply in_map. exact Hin. }
  rewrite (PushJob_accepted_eq b' req) by (try lia; exact Hreg).
  cbv zeta. destruct (job_Create (NewJob req)); eexists; reflexivity.
Qed.

(** ** Further properties of ShutdownWorkers *)

Lemma ShutdownWorkers_not_running
    (b : redisBroker) (ctx : Context) (sch : Schedule) :
  running b <> 1 -> ShutdownWorkers b ctx sch = (b, [], Some ErrClosed).
Proof.
  intros Hr. unfold ShutdownWorkers, CompareAndSwapUint32.
  destruct (running b =? 1) eqn:E; [apply Z.eqb_eq in E; contradiction|].
  reflexivity.
Qed.

(** X4.  [ShutdownWorkers] takes effect at most once: called again on the
    broker a first call leaves, whatever that call returned (nil, pool
    errors, the context error or [ErrClosed]), it returns [ErrClosed] and
    does nothing: no token is awaited, no pool is shut down, the client is
    not closed.  The same holds on a broker that was never started. *)
Theorem ShutdownWorkers_once
    (b : redisBroker) (ctx ctx' : Context) (sch sch' : Schedule) :
  ShutdownWorkers (fst (fst (ShutdownWorkers b ctx sch))) ctx' sch' =
    (fst (fst (ShutdownWorkers b ctx sch)), [], Some ErrClosed) /\
  ShutdownWorkers NewRedisBroker ctx sch =
    (NewRedisBroker, [], Some ErrClosed).
Proof.
  split; [|reflexivity].
  destruct (ShutdownWorkers b ctx sch) as [[b1 tr1] e1] eqn:H. simpl.
  apply ShutdownWorkers_not_running.
  destruct (ShutdownWorkers_flag b ctx sch b1 tr1 e1 H)
    as [[_ ->]|(Hn & -> & _)]; [simpl; lia | exact Hn].
Qed.

(** X5.  After [ShutdownWorkers], whatever it returned, [PushJob] returns
    [ErrClosed] for every request and calls neither the store nor the queue
    client, although the registered types are still those of before. *)
Theorem ShutdownWorkers_then_PushJob
    (b : redisBroker) (ctx : Context) (sch : Schedule) (req : JobRequest) :
  flag_ok (running b) ->
  PushJob (fst (fst (ShutdownWorkers b ctx sch))) req =
    ([], (None, Some ErrClosed)) /\
  WorkersTypes (fst (fst (ShutdownWorkers b ctx sch))) = WorkersTypes b.
Proof.
  intros Hf.
  destruct (ShutdownWorkers b ctx sch) as [[b1 tr1] e1] eqn:H. simpl.
  assert (H0 : running b1 = 0 /\ workersTypes b1 = workersTypes b).
  { destruct (ShutdownWorkers_flag b ctx sch b1 tr1 e1 H)
      as [[_ ->]|(Hn & -> & _)]; [split; reflexivity|].
    destruct Hf as [Hf|Hf]; [split; [exact Hf | reflexivity] | contradiction]. }
  destruct H0 as [H0 Ht]. split; [|exact Ht].
  unfold PushJob. rewrite H0. reflexivity.
Qed.

Lemma waitClosed_first_done (ctx : Context) (sch : Schedule) (n : nat) :
  forall i,
    waitClosed ctx sch n i =
      match first_done sch n i with
      | Some k => (repeat EvRecvClosed (k - i) ++ [failed_line ctx], false)
      | None => (repeat EvRecvClosed n, true)
      end /\
    (forall k, first_done sch n i = Some k -> (i <= k < i + n)%nat).
Proof.
  induction n as [|n IH]; intros i; simpl.
  - split; [reflexivity | discriminate].
  - destruct (select_at sch i) eqn:Hs.
    + split; [rewrite Nat.sub_diag; reflexivity|].
      intros k Hk. injection Hk as <-. lia.
    + destruct (IH (S i)) as [HW Hb]. rewrite HW.
      destruct (first_done sch n (S i)) as [k|] eqn:Hfd.
      * specialize (Hb k eq_refl). split.
        -- replace (k - i)%nat with (S (k - S i)) by lia. reflexivity.
        -- intros k' Hk'. injection Hk' as <-. lia.
      * split; [reflexivity | discriminate].
Qed.

(** X6.  A [ShutdownWorkers] on a running broker with pools receives, from
    [closed], as many tokens as there are [select]s before the first one
    that takes the context's case, all of them if there is none; when the
    context's case is taken it returns the context error, the flag is at 0
    all the same, and fewer tokens than pools were received. *)
Theorem ShutdownWorkers_tokens
    (b : redisBroker) (ctx : Context) (sch : Schedule) :
  running b = 1 -> workers b <> [] ->
  let n := List.length (workers b) in
  let tr := snd (fst (ShutdownWorkers b ctx sch)) in
  running (fst (fst (ShutdownWorkers b ctx sch))) = 0 /\
  match first_done sch n 0 with
  | Some k =>
      count is_RecvClosed tr = k /\ (k < n)%nat /\
      snd (ShutdownWorkers b ctx sch) = Some (ctx_Err ctx)
  | None => count is_RecvClosed tr = n
  end.
Proof.
  intros Hr Hw n tr. subst tr.
  unfold ShutdownWorkers, CompareAndSwapUint32. rewrite Hr.
  change (1 =? 1) with true. cbv iota beta. simpl negb. cbv iota.
  simpl workers.
  assert (Hlen : (len (workers b) =? 0) = false).
  { apply Z.eqb_neq. unfold len. destruct (workers b); [contradiction|].
    simpl. lia. }
  rewrite Hlen. fold n.
  destruct (waitClosed_first_done ctx sch n 0) as [HW Hb]. rewrite HW.
  destruct (first_done sch n 0) as [k|].
  - specialize (Hb k eq_refl). cbn [fst snd]. split; [reflexivity|].
    split; [|split; [lia | reflexivity]].
    rewrite Nat.sub_0_r. rewrite !count_app, count_repeat_RecvClosed.
    unfold count. simpl. lia.
  - pose proof (collectErrs_trace
                  (recvOrder (errs_pick sch) n 0 (workers b)) None) as Ht.
    destruct (collectErrs _ None) as [tr3 errm]. simpl in Ht. subst tr3.
    cbn [fst snd]. split; [reflexivity|].
    rewrite !count_app, count_repeat_RecvClosed.
    rewrite count_map_GoShutdown, count_map_RecvErr by reflexivity.
    destruct errm; unfold count; simpl; lia.
Qed.

(** ** Further properties of pollLoop *)

Lemma outcome_poll_events (ch : chan) (t : Tick) (rest : trace) :
  outcome ch t rest -> forallb (poll_event ch) rest = true.
Proof.
  intros H; destruct H; simpl; rewrite ?Nat.eqb_refl; reflexivity.
Qed.

Lemma poll_events_count (ch : chan) (p : event -> bool) (tr : trace) :
  (forall e, poll_event ch e = true -> p e = false) ->
  forallb (poll_event ch) tr = true -> count p tr = O.
Proof.
  intros Hp. unfold count. induction tr as [|e tr IH]; simpl; [reflexivity|].
  intros H. apply andb_true_iff in H. destruct H as [He Ht].
  rewrite (Hp e He). apply IH. exact Ht.
Qed.

Lemma poll_events_sent (ch : chan) (tr : trace) :
  forallb (poll_event ch) tr = true ->
  forall ch' j, In (ch', j) (sent tr) -> ch' = ch.
Proof.
  induction tr as [|e tr IH]; simpl; [intros _ ch' j []|].
  intros H ch' j Hin. apply andb_true_iff in H. destruct H as [He Ht].
  destruct e; try (apply (IH Ht ch' j); exact Hin).
  simpl in Hin. destruct Hin as [Heq|Hin]; [|apply (IH Ht ch' j); exact Hin].
  injection Heq as -> _. simpl in He. apply Nat.eqb_eq in He. exact He.
Qed.

(** X7.  A poll loop only pops, sleeps, warns, looks jobs up, sends on its
    own feed channel and, at the end, signals on [closed]: it never pushes
    onto a queue, never creates a job, never closes the client and never
    sends on the feed channel of another pool. *)
Theorem pollLoop_events (key : string) (ch : chan) (ticks : list Tick) :
  forallb (poll_event ch) (fst (pollLoop key ch ticks)) = true /\
  count is_LPush (fst (pollLoop key ch ticks)) = O /\
  count is_ClientClose (fst (pollLoop key ch ticks)) = O /\
  (forall ch' j, In (ch', j) (sent (fst (pollLoop key ch ticks))) -> ch' = ch).
Proof.
  assert (H : forallb (poll_event ch) (fst (pollLoop key ch ticks)) = true).
  { induction ticks as [|t ts IH]; [reflexivity|].
    simpl. destruct (t_running t =? 0); [reflexivity|].
    destruct (pollLoop key ch ts) as [tr ex]. cbn [fst] in *.
    rewrite forallb_app, IH, andb_true_r.
    destruct (pollBody_outcome key ch t) as (rest & -> & Ho).
    simpl. apply (outcome_poll_events ch t). exact Ho. }
  split; [exact H|].
  split; [apply (poll_events_count ch); [|exact H];
          intros [] He; try reflexivity; discriminate|].
  split; [apply (poll_events_count ch); [|exact H];
          intros [] He; try reflexivity; discriminate|].
  apply poll_events_sent. exact H.
Qed.

(** X8.  Once an iteration of a poll loop reads the flag at 0, the loop
    returns: what the environment would have answered afterwards plays no
    part, nothing more is popped and no further job is delivered. *)
Theorem pollLoop_stops_at_flag
    (key : string) (ch : chan) (pre post : list Tick) (t0 : Tick) :
  t_running t0 = 0 ->
  pollLoop key ch (pre ++ t0 :: post) = pollLoop key ch (pre ++ [t0]) /\
  snd (pollLoop key ch (pre ++ t0 :: post)) = true /\
  (List.length (pops (fst (pollLoop key ch (pre ++ t0 :: post))))
   <= List.length pre)%nat.
Proof.
  intros H0.
  assert (Heq : pollLoop key ch (pre ++ t0 :: post)
                = pollLoop key ch (pre ++ [t0])).
  { induction pre as [|t ts IH]; simpl.
    - rewrite H0. reflexivity.
    - destruct (t_running t =? 0); [reflexivity|]. rewrite IH. reflexivity. }
  split; [exact Heq|]. rewrite Heq. clear Heq.
  induction pre as [|t ts IH]; simpl.
  - rewrite H0. simpl. split; [reflexivity | lia].
  - destruct (t_running t =? 0); [simpl; split; [reflexivity | lia]|].
    destruct (pollLoop key ch (ts ++ [t0])) as [tr ex]. cbn [fst snd] in *.
    destruct IH as [IH1 IH2]. split; [exact IH1|].
    rewrite pops_app, length_app.
    destruct (pollBody_outcome key ch t) as (rest & -> & Ho).
    apply outcome_counts in Ho. destruct Ho as (_ & _ & _ & Hp).
    cbn [pops]. rewrite Hp. simpl. lia.
Qed.

Lemma SplitN2_cut (v : string) (d i : string) :
  SplitN2 v "/" = [d; i] <-> cut "/" v = Some (d, i).
Proof.
  unfold SplitN2. destruct (cut "/" v) as [[a b]|].
  - split; intros H; injection H as <- <-; reflexivity.
  - split; discriminate.
Qed.

(** X9.  An iteration of a poll loop delivers a job exactly when the pop
    succeeds with at least two fields, the matched key is at least as long as
    ["j/"], the payload splits at its first ["/"] into a domain and an
    identifier, and the store resolves them; the job sent is the one the
    store returned; otherwise nothing is sent. *)
Theorem pollBody_delivers_iff (key : string) (ch : chan) (t : Tick) :
  (forall job,
      sent (pollBody key ch t) = [(ch, job)] <->
      exists k v more d i,
        t_brpop t = (k :: v :: more, None) /\
        (String.length "j/" <= String.length k)%nat /\
        SplitN2 v "/" = [d; i] /\
        t_get t d i = inr job) /\
  (sent (pollBody key ch t) = [] \/
   exists job, sent (pollBody key ch t) = [(ch, job)]).
Proof.
  destruct (pollBody_outcome key ch t) as (rest & -> & Ho). cbn [sent].
  split.
  - intros job. split.
    + intros Hs. destruct Ho; simpl in Hs; try discriminate.
      injection Hs as <-. do 5 eexists.
      repeat split; [eassumption | simpl; lia | apply SplitN2_cut; eassumption
                     | assumption].
    + intros (k & v & more & d & i & Hb & Hk & Hsp & Hg).
      apply SplitN2_cut in Hsp. simpl in Hk.
      destruct (outcome_popped ch t rest k v more Hb Ho)
        as [[Hk' _] | [(_ & Hc & _) | (d' & i' & _ & Hc & Hr)]];
        [lia | congruence |].
      rewrite Hsp in Hc. injection Hc as <- <-.
      destruct Hr as [(err & Hg' & _) | (job' & Hg' & ->)]; [congruence|].
      rewrite Hg in Hg'. injection Hg' as <-. reflexivity.
  - destruct Ho; simpl; eauto.
Qed.

(** ** Keys and payloads across the operations *)

Lemma str_length_append (a b : string) :
  String.length (a ++ b) = (String.length a + String.length b)%nat.
Proof. induction a as [|c a IH]; simpl; [reflexivity | rewrite IH; reflexivity]. Qed.

Lemma str_append_assoc (a b c : string) :
  ((a ++ b) ++ c)%string = (a ++ (b ++ c))%string.
Proof. induction a as [|x a IH]; simpl; [reflexivity | rewrite IH; reflexivity]. Qed.

Lemma str_append_inj_r (s : string) :
  forall a b, (a ++ s)%string = (b ++ s)%string -> a = b.
Proof.
  induction a as [|c a IH]; intros b H.
  - destruct b as [|c' b]; [reflexivity|].
    apply (f_equal String.length) in H. simpl in H.
    rewrite str_length_append in H. lia.
  - destruct b as [|c' b].
    + apply (f_equal String.length) in H. simpl in H.
      rewrite str_length_append in H. lia.
    + simpl in H. injection H as -> H. rewrite (IH b H). reflexivity.
Qed.

Lemma cut_app (sep : ascii) (d i : string) :
  ~ In sep (list_ascii_of_string d) ->
  cut sep (d ++ String sep i) = Some (d, i).
Proof.
  induction d as [|c d IH]; simpl; intros Hn.
  - rewrite Ascii.eqb_refl. reflexivity.
  - destruct (Ascii.eqb c sep) eqn:E.
    + apply Ascii.eqb_eq in E. exfalso. apply Hn. left. exact E.
    + rewrite IH; [reflexivity|]. intros Hin. apply Hn. right. exact Hin.
Qed.

Lemma PushJob_ok_inv (b : redisBroker) (req : JobRequest) :
  forall tr job,
    PushJob b req = (tr, (Some job, None)) ->
    exists id,
      job_Create (NewJob req) = inr id /\
      job = set_JobID (NewJob req) id /\
      enqueued tr =
        [(if req_Manual req
          then ((redisPrefix ++ req_WorkerType req) ++ redisHighPrioritySuffix)%string
          else (redisPrefix ++ req_WorkerType req)%string,
          (req_Domain req ++ String "/" id)%string)].
Proof.
  intros tr job H. unfold PushJob in H.
  destruct (running b =? 0); [discriminate|].
  destruct (negb (IsInArray (req_WorkerType req) (workersTypes b)));
    [discriminate|].
  destruct (job_Create (NewJob req)) as [err|id]; [discriminate|].
  exists id. split; [reflexivity|].
  cbn [set_JobID NewJob Manual job_WorkerType Domain JobID] in H.
  destruct (req_Manual req);
    match type of H with
    | context [client_LPush ?k ?v] => destruct (client_LPush k v)
    end; try discriminate;
    injection H as <- <-; split; reflexivity.
Qed.

(** X10.  Round trip of a payload.  When [PushJob] succeeds on a request
    whose domain holds no ["/"], the payload it enqueues is split by a poll
    loop that pops it back into the domain of the request and the identifier
    of the job, whatever that identifier is: the store is asked for exactly
    that job, and the job the store answers is the one sent to the pool. *)
Theorem PushJob_then_poll (b : redisBroker) (req : JobRequest) :
  forall tr job,
    PushJob b req = (tr, (Some job, None)) ->
    ~ In "/"%char (list_ascii_of_string (req_Domain req)) ->
    exists k v,
      enqueued tr = [(k, v)] /\
      forall key ch t more,
        t_brpop t = (k :: v :: more, None) ->
        lookups (pollBody key ch t) = [(req_Domain req, JobID job)] /\
        forall j', t_get t (req_Domain req) (JobID job) = inr j' ->
                   sent (pollBody key ch t) = [(ch, j')].
Proof.
  intros tr job H Hd.
  destruct (PushJob_ok_inv b req tr job H) as (id & _ & -> & He).
  eexists; eexists. split; [exact He|].
  intros key ch t more Hb.
  destruct (pollBody_outcome key ch t) as (rest & -> & Ho).
  pose proof (cut_app "/" (req_Domain req) id Hd) as Hc.
  destruct (outcome_popped ch t rest _ _ more Hb Ho)
    as [[Hk _] | [(_ & Hc' & _) | (d & i & _ & Hc' & Hr)]].
  - exfalso. destruct (req_Manual req); simpl in Hk; lia.
  - congruence.
  - rewrite Hc in Hc'. injection Hc' as <- <-. simpl JobID.
    destruct Hr as [(err & Hg & ->) | (j & Hg & ->)]; simpl.
    + split; [reflexivity|]. intros j' Hg'. congruence.
    + split; [reflexivity|]. intros j' Hg'. congruence.
Qed.

(** X11.  A slash in the domain breaks the round trip: when the domain of
    the request is [a/rest], with no ["/"] in [a], the poll loop that pops the
    payload asks the store for the domain [a] and the identifier
    [rest/<job_id>]. *)
Theorem PushJob_then_poll_slash (b : redisBroker) (req : JobRequest) :
  forall tr job a rest,
    PushJob b req = (tr, (Some job, None)) ->
    req_Domain req = (a ++ "/" ++ rest)%string ->
    ~ In "/"%char (list_ascii_of_string a) ->
    exists k v,
      enqueued tr = [(k, v)] /\
      forall key ch t more,
        t_brpop t = (k :: v :: more, None) ->
        lookups (pollBody key ch t) = [(a, (rest ++ "/" ++ JobID job)%string)].
Proof.
  intros tr job a rest H Hdom Ha.
  destruct (PushJob_ok_inv b req tr job H) as (id & _ & -> & He).
  eexists; eexists. split; [exact He|].
  intros key ch t more Hb.
  destruct (pollBody_outcome key ch t) as (r & -> & Ho).
  assert (Hc : cut "/" (req_Domain req ++ String "/" id)
               = Some (a, (rest ++ "/" ++ id)%string)).
  { rewrite Hdom. simpl. rewrite str_append_assoc. simpl.
    apply cut_app. exact Ha. }
  destruct (outcome_popped ch t r _ _ more Hb Ho)
    as [[Hk _] | [(_ & Hc' & _) | (d & i & _ & Hc' & Hr)]].
  - exfalso. destruct (req_Manual req); simpl in Hk; lia.
  - congruence.
  - rewrite Hc in Hc'. injection Hc' as <- <-. simpl JobID.
    destruct Hr as [(err & Hg & ->) | (j & Hg & ->)]; reflexivity.
Qed.

(** X12.  The three operations agree on the queues of a worker type: the
    pair of keys a poll loop started for the type pops is, in one order or
    the other, the pair of lanes of the type; [WorkerQueueLen] asks for the
    lengths of these lanes and of nothing else; and what [PushJob] enqueues
    for a request of that type goes onto one of them. *)
Theorem lanes_agree (workerType : string) :
  (forall draw,
      Permutation
        [fst (pollKeys (redisPrefix ++ workerType) draw);
         snd (pollKeys (redisPrefix ++ workerType) draw)]
        (lanes workerType)) /\
  (forall b, incl (fst (WorkerQueueLen b workerType)) (lanes workerType)) /\
  (forall b req k v,
      req_WorkerType req = workerType ->
      In (k, v) (enqueued (fst (PushJob b req))) ->
      In k (lanes workerType)).
Proof.
  split; [|split].
  - intros draw. unfold pollKeys, lanes.
    destruct (draw =? 0); simpl; [apply Permutation_refl | apply perm_swap].
  - intros b. unfold WorkerQueueLen, lanes.
    destruct (client_LLen _) as [e|l1]; simpl.
    + intros x [<-|[]]. left; reflexivity.
    + destruct (client_LLen _) as [e|l2]; simpl; apply incl_refl.
  - intros b req k v <- Hin. unfold PushJob in Hin.
    destruct (running b =? 0); [destruct Hin|].
    destruct (negb _); [destruct Hin|].
    destruct (job_Create (NewJob req)) as [err|id]; [destruct Hin|].
    cbn [set_JobID NewJob Manual job_WorkerType Domain JobID] in Hin.
    unfold lanes.
    destruct (req_Manual req);
      match type of Hin with
      | context [client_LPush ?k ?v] => destruct (client_LPush k v)
      end; simpl in Hin; try (destruct Hin; fail);
      destruct Hin as [Heq|[]]; injection Heq as <- _; simpl; auto.
Qed.

(** X13.  The lanes of two worker types are disjoint exactly when the types
    differ and neither name is the other one followed by ["/p0"].  The manual
    lane of a type [t] is the normal lane of the type [t/p0]: it is the first
    key [WorkerQueueLen] asks for on [t/p0], and the key a poll loop started
    for [t/p0] pops as its normal lane. *)
Theorem lanes_disjoint_iff (t t' : string) :
  ((forall k, In k (lanes t) -> ~ In k (lanes t')) <->
   (t <> t' /\ t' <> (t ++ "/p0")%string /\ t <> (t' ++ "/p0")%string)) /\
  (forall b, exists rest,
      fst (WorkerQueueLen b (t ++ "/p0")) = nth 1 (lanes t) EmptyString :: rest) /\
  (forall draw,
      In (nth 1 (lanes t) EmptyString)
         [fst (pollKeys (redisPrefix ++ (t ++ "/p0")) draw);
          snd (pollKeys (redisPrefix ++ (t ++ "/p0")) draw)]).
Proof.
  split; [|split].
  - unfold lanes, redisPrefix, redisHighPrioritySuffix. split.
    + intros H. split; [|split]; intros Heq; subst.
      * apply (H ("j/" ++ t')%string); left; reflexivity.
      * apply (H (("j/" ++ t) ++ "/p0")%string);
          [right; left; reflexivity | left; reflexivity].
      * apply (H ("j/" ++ (t' ++ "/p0"))%string);
          [left; reflexivity | right; left; reflexivity].
    + intros (H1 & H2 & H3) k [<-|[<-|[]]] [Heq|[Heq|[]]]; simpl in Heq.
      * injection Heq as Heq. congruence.
      * injection Heq as Heq. congruence.
      * injection Heq as Heq. congruence.
      * injection Heq as Heq. apply str_append_inj_r in Heq. congruence.
  - intros b. unfold WorkerQueueLen, lanes, redisPrefix, redisHighPrioritySuffix.
    cbn [nth append].
    destruct (client_LLen _) as [e|l1]; [eexists; reflexivity|].
    destruct (client_LLen _) as [e|l2]; eexists; reflexivity.
  - intros draw. unfold pollKeys, lanes, redisPrefix, redisHighPrioritySuffix.
    cbn [nth append]. destruct (draw =? 0); simpl; auto.
Qed.

(** X14.  [WorkerQueueLen] returns the first error it meets with a length of
    0: when the length of the normal lane fails the manual lane is not asked
    for; when the manual lane fails the length already read is dropped.  When
    both succeed with lengths that are not negative and whose sum fits an
    [int64], it returns their sum.  The state of the broker plays no part. *)
Theorem WorkerQueueLen_result (b : redisBroker) (workerType : string) :
  let key := ("j/" ++ workerType)%string in
  let keyP0 := ("j/" ++ workerType ++ "/p0")%string in
  match client_LLen key, client_LLen keyP0 with
  | inl err, _ => WorkerQueueLen b workerType = ([key], (0, Some err))
  | inr l1, inl err =>
      WorkerQueueLen b workerType = ([key; keyP0], (0, Some err))
  | inr l1, inr l2 =>
      0 <= l1 -> 0 <= l2 -> l1 + l2 < 2 ^ 63 ->
      WorkerQueueLen b workerType = ([key; keyP0], (l1 + l2, None))
  end.
Proof.
  intros key keyP0. subst key keyP0.
  unfold WorkerQueueLen, redisPrefix, redisHighPrioritySuffix.
  cbn [append].
  destruct (client_LLen (String "j" (String "/" workerType))) as [err|l1];
    [reflexivity|].
  destruct (client_LLen (String "j" (String "/" (workerType ++ "/p0"))))
    as [err|l2]; [reflexivity|].
  intros H1 H2 H3. unfold wrap_int64.
  rewrite Z.mod_small by lia.
  replace (l1 + l2 + 2 ^ 63 - 2 ^ 63) with (l1 + l2) by lia. reflexivity.
Qed.

(** ** Invariants of the broker *)

(** X15.  Whatever sequence of [StartWorkers] and [ShutdownWorkers] a new
    broker goes through, successful or not: the flag is 0 or 1, and every
    pool was built from a configuration with a positive concurrency whose
    worker type is registered, so that [PushJob] knows the type of every
    pool. *)
Theorem reachable_invariant (b : redisBroker) :
  reachable b ->
  flag_ok (running b) /\
  exists confs,
    workers b = map NewWorker confs /\
    (forall c, In c confs ->
               has_slots c = true /\ In (WorkerType c) (WorkersTypes b)).
Proof.
  unfold WorkersTypes.
  induction 1 as [|b ws _ [Hf (confs & Hw & Hc)]
                  |b ctx sch _ [Hf (confs & Hw & Hc)]].
  - split; [left; reflexivity|]. exists []. split; [reflexivity | intros c []].
  - split; [apply flag_ok_StartWorkers; exact Hf|].
    destruct (StartWorkers b ws) as [[b' tr] e] eqn:HS. simpl.
    destruct (running b =? 0) eqn:Hr.
    + apply Z.eqb_eq in Hr. destruct e as [err|].
      * pose proof (StartWorkers_err_inv b ws b' tr err Hr HS) as HL.
        destruct (startLoop_fail ws _ _ _ _ _ HL)
          as (pre & conf & post & _ & Hs & _ & _ & Ht & Hw' & _).
        simpl in Ht, Hw'.
        exists (confs ++ filter has_slots pre ++ [conf]).
        rewrite Hw', Hw, !map_app. split; [reflexivity|].
        intros c Hin. rewrite Ht.
        apply in_app_or in Hin. destruct Hin as [Hin|Hin].
        { destruct (Hc c Hin) as [H1 H2]. split; [exact H1|].
          apply in_or_app. left. exact H2. }
        apply in_app_or in Hin. destruct Hin as [Hin|[<-|[]]].
        { apply filter_In in Hin. destruct Hin as [Hin Hsl].
          split; [exact Hsl|]. apply in_or_app. right.
          apply in_or_app. left. apply in_map. exact Hin. }
        split; [exact Hs|]. apply in_or_app. right.
        apply in_or_app. right. left. reflexivity.
      * destruct (StartWorkers_ok_inv b ws b' tr HS)
          as (_ & tr0 & extra & HL & _).
        apply startLoop_ok in HL. simpl in HL. destruct HL as (Ht & Hw' & _).
        exists (confs ++ filter has_slots ws).
        rewrite Hw', Hw, map_app. split; [reflexivity|].
        intros c Hin. rewrite Ht.
        apply in_app_or in Hin. destruct Hin as [Hin|Hin].
        { destruct (Hc c Hin) as [H1 H2]. split; [exact H1|].
          apply in_or_app. left. exact H2. }
        apply filter_In in Hin. destruct Hin as [Hin Hsl].
        split; [exact Hsl|]. apply in_or_app. right. apply in_map. exact Hin.
    + apply Z.eqb_neq in Hr. rewrite (StartWorkers_running b ws Hr) in HS.
      injection HS as <- _ _. exists confs. split; [exact Hw | exact Hc].
  - split; [apply flag_ok_ShutdownWorkers; exact Hf|].
    destruct (ShutdownWorkers b ctx sch) as [[b' tr] e] eqn:HS. simpl.
    destruct (ShutdownWorkers_flag b ctx sch b' tr e HS)
      as [[_ ->]|(_ & -> & _)]; exists confs; split; assumption.
Qed.

End Broker.

(** ** The deployment of [Scenario] *)

Import Scenario.

(** The broker after [StartWorkers] on the three configured types, the
    broker after [StartWorkers] on the registered-only type alone, and the
    former after a shutdown. *)
Local Abbreviation serving :=
  ({| workers := [konnector; sendmail];
      workersTypes := ["konnector"; "thumbnail"; "sendmail"];
      running := 1 |} : redisBroker (Worker := Pool)).

Local Abbreviation registering :=
  ({| workers := [];
      workersTypes := ["thumbnail"];
      running := 1 |} : redisBroker (Worker := Pool)).

Local Abbreviation stopped :=
  ({| workers := [konnector; sendmail];
      workersTypes := ["konnector"; "thumbnail"; "sendmail"];
      running := 0 |} : redisBroker (Worker := Pool)).

Local Abbreviation start_trace :=
  [EvWorkerStart konnector 0%nat; EvGoPollLoop "j/konnector" 0%nat;
   EvWorkerStart sendmail 1%nat; EvGoPollLoop "j/sendmail" 1%nat;
   EvInfof "Started redis broker for %d workers type" [AInt 2]].

Lemma StartWorkers_registers_witness :
  StartWorkers newPool starts slots NewRedisBroker configured
    = (serving, start_trace, None) /\
  WorkersTypes serving = ["konnector"; "thumbnail"; "sendmail"] /\
  workers serving = [konnector; sendmail].
Proof.
  assert (H : StartWorkers newPool starts slots NewRedisBroker configured
              = (serving, start_trace, None)) by reflexivity.
  split; [exact H|].
  destruct (StartWorkers_registers newPool starts slots _ _ _ _ H)
    as (_ & Hw & _ & _ & Ht).
  split; [exact Ht | exact Hw].
Defined.

(** C1, as stated, fails: the broker of the deployment is started, shut
    down, and started again; the second start returns nil, not [ErrClosed],
    and the broker runs again. *)
Lemma StartWorkers_restarts_after_shutdown :
  StartWorkers newPool starts slots NewRedisBroker configured
    = (serving, start_trace, None) /\
  fst (fst (ShutdownWorkers stops serving ctx50ms all_signal)) = stopped /\
  snd (StartWorkers newPool starts slots stopped configured) = None /\
  snd (StartWorkers newPool starts slots stopped configured) <> Some ErrClosed /\
  running (fst (fst (StartWorkers newPool starts slots stopped configured))) = 1.
Proof.
  repeat split. vm_compute. discriminate.
Qed.

Lemma StartWorkers_after_shutdown_witness :
  StartWorkers newPool starts slots NewRedisBroker configured
    = (serving, start_trace, None) /\
  StartWorkers newPool starts slots serving configured
    = (serving, [], Some ErrClosed) /\
  running (fst (fst (ShutdownWorkers stops serving ctx50ms expires))) = 0 /\
  exists b3 tr3,
    StartWorkers newPool starts slots
      (fst (fst (ShutdownWorkers stops serving ctx50ms expires))) [sendmail]
      = (b3, tr3, None) /\ running b3 = 1.
Proof.
  assert (H : StartWorkers newPool starts slots NewRedisBroker configured
              = (serving, start_trace, None)) by reflexivity.
  split; [exact H|].
  destruct (StartWorkers_after_shutdown newPool starts stops slots _ _ _ _ H)
    as (_ & Hagain & Hshut).
  split; [apply Hagain|].
  destruct (ShutdownWorkers stops serving ctx50ms expires)
    as [[b2 tr2] e2] eqn:HS.
  destruct (Hshut ctx50ms expires b2 tr2 e2 HS) as [Hidle Hrestart].
  split; [exact Hidle|].
  apply Hrestart. intros conf _ _. reflexivity.
Defined.

(** C8, as stated, fails: a broker started with the registered-only type
    has no pool; its shutdown returns nil without a call of [Close]. *)
Lemma ShutdownWorkers_without_pools_keeps_client :
  StartWorkers newPool starts slots NewRedisBroker [thumbnail]
    = (registering, [], None) /\
  snd (ShutdownWorkers stops registering ctx50ms all_signal) = None /\
  snd (fst (ShutdownWorkers stops registering ctx50ms all_signal)) = [] /\
  count is_ClientClose
    (snd (fst (ShutdownWorkers stops registering ctx50ms all_signal))) <> 1%nat.
Proof.
  repeat split. vm_compute. discriminate.
Qed.

Lemma ShutdownWorkers_closes_client_once_witness :
  running serving = 1 /\ workers serving <> [] /\
  snd (ShutdownWorkers stops serving ctx50ms expires) = Some deadline /\
  count is_ClientClose
    (snd (fst (ShutdownWorkers stops serving ctx50ms expires))) = 1%nat /\
  count is_ClientClose
    (snd (fst (ShutdownWorkers stops serving ctx50ms all_signal))) = 1%nat.
Proof.
  assert (Hr : running serving = 1) by reflexivity.
  assert (Hw : workers serving <> []) by discriminate.
  split; [exact Hr|]. split; [exact Hw|]. split; [reflexivity|]. split.
  - destruct (ShutdownWorkers stops serving ctx50ms expires)
      as [[b' tr] e] eqn:HS.
    exact (proj1 (ShutdownWorkers_closes_client_once
                    stops serving ctx50ms expires Hr Hw b' tr e HS)).
  - destruct (ShutdownWorkers stops serving ctx50ms all_signal)
      as [[b' tr] e] eqn:HS.
    exact (proj1 (ShutdownWorkers_closes_client_once
                    stops serving ctx50ms all_signal Hr Hw b' tr e HS)).
Defined.

Lemma ShutdownWorkers_two_phases_witness :
  running serving = 1 /\ workers serving <> [] /\
  (exists es,
      snd (ShutdownWorkers stops serving ctx50ms all_signal)
        = Some (ErrMulti es) /\
      Permutation es [deadline]) /\
  count is_RecvClosed
    (snd (fst (ShutdownWorkers stops serving ctx50ms all_signal))) = 2%nat /\
  snd (ShutdownWorkers stops serving ctx50ms expires) = Some deadline /\
  count is_GoShutdown
    (snd (fst (ShutdownWorkers stops serving ctx50ms expires))) = O.
Proof.
  assert (Hr : running serving = 1) by reflexivity.
  assert (Hw : workers serving <> []) by discriminate.
  split; [exact Hr|]. split; [exact Hw|].
  destruct (ShutdownWorkers stops serving ctx50ms all_signal)
    as [[b1 tr1] e1] eqn:H1.
  destruct (ShutdownWorkers stops serving ctx50ms expires)
    as [[b2 tr2] e2] eqn:H2.
  destruct (ShutdownWorkers_two_phases
              stops serving ctx50ms all_signal Hr Hw b1 tr1 e1 H1)
    as (_ & _ & Hall).
  destruct (ShutdownWorkers_two_phases
              stops serving ctx50ms expires Hr Hw b2 tr2 e2 H2)
    as (_ & Hctx & _).
  destruct Hall as (Htok & _ & _ & Herr); [intros i _; reflexivity|].
  destruct Hctx as [He Hg]; [exists 1%nat; split; [simpl; lia | reflexivity]|].
  split; [|split; [exact Htok | split; [exact He | exact Hg]]].
  apply Herr. exists sendmail. split; [right; left; reflexivity | discriminate].
Defined.

Lemma PushJob_rejects_witness :
  flag_ok (running stopped) /\ flag_ok (running serving) /\
  PushJob creates redis_up stopped manual_sync
    = ([], (None, Some ErrClosed)) /\
  PushJob creates redis_up serving unzip
    = ([], (None, Some ErrUnknownWorker)) /\
  enqueued (fst (PushJob creates redis_up serving unzip)) = [].
Proof.
  assert (H0 : flag_ok (running stopped)) by (left; reflexivity).
  assert (H1 : flag_ok (running serving)) by (right; reflexivity).
  split; [exact H0|]. split; [exact H1|].
  destruct (PushJob_rejects creates redis_up stopped manual_sync H0)
    as (Hclosed & _ & _).
  destruct (PushJob_rejects creates redis_up serving unzip H1)
    as (_ & Hunknown & Hnothing).
  assert (Hout : ~ In (req_WorkerType unzip) (WorkersTypes serving)).
  { simpl. intros [H|[H|[H|[]]]]; discriminate. }
  split; [apply Hclosed; simpl; lia|].
  split; [apply Hunknown; [reflexivity | exact Hout]|].
  apply Hnothing. right. exact Hout.
Defined.

Lemma PushJob_accepted_witness :
  running serving = 1 /\
  In (req_WorkerType manual_sync) (WorkersTypes serving) /\
  fst (PushJob creates redis_up serving manual_sync)
    = [EvCreate (NewJob manual_sync) (inr "42");
       EvLPush "j/konnector/p0" "alice.cozy/42" None] /\
  snd (PushJob creates redis_up serving manual_sync) = (Some sync42, None).
Proof.
  assert (Hr : running serving = 1) by reflexivity.
  assert (Hin : In (req_WorkerType manual_sync) (WorkersTypes serving))
    by (left; reflexivity).
  split; [exact Hr|]. split; [exact Hin|].
  pose proof (PushJob_accepted creates redis_up serving manual_sync Hr Hin)
    as H.
  cbv zeta in H. change (creates (NewJob manual_sync)) with
    (@inr error string "42") in H. cbv iota beta in H.
  destruct H as (Htr & _ & Hres). split; [exact Htr|].
  exact (proj1 Hres).
Defined.

Lemma PushJob_not_atomic_witness :
  running serving = 1 /\
  In (req_WorkerType manual_sync) (WorkersTypes serving) /\
  creates (NewJob manual_sync) = inr "42" /\
  redis_down "j/konnector/p0" "alice.cozy/42" = Some refused /\
  PushJob creates redis_down serving manual_sync
    = ([EvCreate (NewJob manual_sync) (inr "42");
        EvLPush "j/konnector/p0" "alice.cozy/42" (Some refused)],
       (None, Some refused)) /\
  persisted (fst (PushJob creates redis_down serving manual_sync)) = [sync42] /\
  enqueued (fst (PushJob creates redis_down serving manual_sync)) = [].
Proof.
  assert (Hr : running serving = 1) by reflexivity.
  assert (Hin : In (req_WorkerType manual_sync) (WorkersTypes serving))
    by (left; reflexivity).
  split; [exact Hr|]. split; [exact Hin|].
  split; [reflexivity|]. split; [reflexivity|].
  exact (PushJob_not_atomic creates redis_down serving manual_sync
           "42" refused Hr Hin eq_refl eq_refl).
Defined.

(** C6, as stated, fails: when the key the pop returns is shorter than
    ["j/"], the warning carries that key; the payload is dropped without
    being logged. *)
Lemma pollLoop_short_key_logs_key :
  t_running short_key <> 0 /\
  t_brpop short_key = (["j"; "alice.cozy/42"], None) /\
  pollBody (Worker := Pool) "j/konnector" 0%nat short_key
    = [EvBRPop redisBRPopTimeout "j/konnector/p0" "j/konnector";
       EvWarnf "Invalid key %s" [AStr "j"]] /\
  logged (pollBody (Worker := Pool) "j/konnector" 0%nat short_key)
    = [AStr "j"] /\
  ~ In (AStr "alice.cozy/42")
       (logged (pollBody (Worker := Pool) "j/konnector" 0%nat short_key)).
Proof.
  split; [discriminate|]. repeat (split; [reflexivity|]).
  simpl. intros [H|[]]. discriminate.
Qed.

Lemma pollLoop_drops_bad_payloads_witness :
  t_running poison <> 0 /\
  fst (pollLoop (Worker := Pool) "j/konnector" 0%nat [poison; closing])
    = pollBody "j/konnector" 0%nat poison ++ [EvSendClosed] /\
  pollBody (Worker := Pool) "j/konnector" 0%nat timeout
    = [EvBRPop redisBRPopTimeout "j/konnector" "j/konnector/p0";
       EvSleep (100 * Millisecond)] /\
  pollBody (Worker := Pool) "j/konnector" 0%nat short_key
    = [EvBRPop redisBRPopTimeout "j/konnector/p0" "j/konnector";
       EvWarnf "Invalid key %s" [AStr "j"]] /\
  pollBody (Worker := Pool) "j/konnector" 0%nat poison
    = [EvBRPop redisBRPopTimeout "j/konnector/p0" "j/konnector";
       EvWarnf "Invalid val %s" [AStr "nodomain"]] /\
  pollBody (Worker := Pool) "j/konnector" 0%nat unknown
    = [EvBRPop redisBRPopTimeout "j/konnector/p0" "j/konnector";
       EvGet "alice.cozy" "7";
       EvWarnf "Cannot find job %s on domain %s: %s"
         [AStr "7"; AStr "alice.cozy"; AErr (ErrExternal "not_found")]] /\
  count is_SendJob (pollBody (Worker := Pool) "j/konnector" 0%nat poison) = O /\
  count is_LPush (pollBody (Worker := Pool) "j/konnector" 0%nat unknown) = O.
Proof.
  assert (Hp : t_running poison <> 0) by discriminate.
  assert (Ht : t_running timeout <> 0) by discriminate.
  assert (Hu : t_running unknown <> 0) by discriminate.
  assert (Hs : t_running short_key <> 0) by discriminate.
  split; [exact Hp|].
  destruct (pollLoop_drops_bad_payloads (Worker := Pool)
              "j/konnector" 0%nat poison [closing] Hp) as (Hgo & _ & Hbad).
  destruct (pollLoop_drops_bad_payloads (Worker := Pool)
              "j/konnector" 0%nat timeout [] Ht) as (_ & Hsleep & _).
  destruct (pollLoop_drops_bad_payloads (Worker := Pool)
              "j/konnector" 0%nat unknown [] Hu) as (_ & _ & Hunk).
  destruct (pollLoop_drops_bad_payloads (Worker := Pool)
              "j/konnector" 0%nat short_key [] Hs) as (_ & _ & Hshort).
  assert (Hnoslash : ~ In "/"%char (list_ascii_of_string "nodomain")).
  { simpl. intros H. repeat (destruct H as [H|H]; [discriminate|]). exact H. }
  destruct (Hbad "j/konnector" "nodomain" [] eq_refl)
    as (_ & Hval & _ & Hdrop).
  destruct (Hunk "j/konnector" "alice.cozy/7" [] eq_refl)
    as (_ & _ & Hget & Hdrop').
  destruct (Hshort "j" "alice.cozy/42" [] eq_refl) as (Hkey & _).
  destruct Hdrop as (_ & _ & Hsend & _); [right; left; exact Hnoslash|].
  destruct Hdrop' as (_ & _ & _ & Hpush).
  { right. right. exists "alice.cozy", "7", (ErrExternal "not_found").
    split; reflexivity. }
  split; [rewrite Hgo; reflexivity|].
  split; [apply Hsleep; left; discriminate|].
  split; [apply Hkey; simpl; lia|].
  split; [apply Hval; [simpl; lia | exact Hnoslash]|].
  split; [apply (Hget "alice.cozy" "7" (ErrExternal "not_found"));
          [simpl; lia | reflexivity | reflexivity]|].
  split; [exact Hsend | exact Hpush].
Defined.


(** ** PushJob and WorkerQueueLen on the lists of the store *)

Lemma lists_lane_other (wt : string) :
  String.eqb ("j/" ++ wt) ("j/" ++ wt ++ "/p0") = false /\
  String.eqb ("j/" ++ wt ++ "/p0") ("j/" ++ wt) = false.
Proof.
  assert (H : ("j/" ++ wt)%string <> ("j/" ++ wt ++ "/p0")%string).
  { intros H. apply (f_equal String.length) in H. simpl in H.
    rewrite str_length_append in H. simpl in H. lia. }
  split; apply String.eqb_neq; congruence.
Qed.

(** X16.  On the lists of the store, a [PushJob] that succeeds makes
    [WorkerQueueLen] of the worker type of the request greater by exactly
    one, whichever lane the payload went to (as long as the lengths fit an
    [int64]), and leaves alone the [WorkerQueueLen] of every worker type
    whose lanes are disjoint from those of the request. *)
Theorem PushJob_raises_queue_len
    (Worker : Type) (job_Create : Job -> error + string)
    (client_LPush : string -> string -> option error)
    (b : redisBroker (Worker := Worker)) (req : JobRequest) (q : Lists) :
  forall tr job,
    PushJob job_Create client_LPush b req = (tr, (Some job, None)) ->
    let q' := lists_after (enqueued tr) q in
    let wt := req_WorkerType req in
    len (q ("j/" ++ wt)%string) + len (q ("j/" ++ wt ++ "/p0")%string) + 1
      < 2 ^ 63 ->
    snd (WorkerQueueLen (lists_LLen q') b wt) =
      (fst (snd (WorkerQueueLen (lists_LLen q) b wt)) + 1, None) /\
    forall t',
      (forall k, In k (lanes t') -> ~ In k (lanes wt)) ->
      WorkerQueueLen (lists_LLen q') b t' = WorkerQueueLen (lists_LLen q) b t'.
Proof.
  intros tr job H q' wt Hfit.
  destruct (PushJob_ok_inv job_Create client_LPush b req tr job H)
    as (id & _ & _ & He).
  subst q'. rewrite He. cbn [lists_after].
  destruct (lists_lane_other wt) as [Hne1 Hne2].
  assert (Hnn : forall l : list string, 0 <= len l) by (intros l; unfold len; lia).
  split.
  - unfold WorkerQueueLen, lists_LLen, lists_LPush, redisPrefix,
      redisHighPrioritySuffix, wrap_int64. cbn [append fst snd]. fold wt.
    assert (Hlen : forall (v : string) l, len (v :: l) = len l + 1).
    { intros v l. unfold len. simpl List.length. lia. }
    pose proof (Hnn (q ("j/" ++ wt)%string)) as H1.
    pose proof (Hnn (q ("j/" ++ wt ++ "/p0")%string)) as H2.
    cbn [append] in H1, H2, Hfit, Hne1, Hne2.
    destruct (req_Manual req); cbn [append];
      rewrite ?String.eqb_refl, ?Hne1, ?Hne2, ?Hlen;
      rewrite !Z.mod_small by lia; f_equal; lia.
  - intros t' Hdis.
    assert (Hk : forall k, In k (lanes t') ->
                 lists_LPush q
                   (if req_Manual req
                    then ((redisPrefix ++ req_WorkerType req)
                            ++ redisHighPrioritySuffix)%string
                    else (redisPrefix ++ req_WorkerType req)%string)
                   (req_Domain req ++ String "/" id) k = q k).
    { intros k Hin. unfold lists_LPush.
      destruct (String.eqb k _) eqn:E; [|reflexivity].
      apply String.eqb_eq in E. exfalso. apply (Hdis k Hin). subst k.
      unfold lanes. fold wt. destruct (req_Manual req); simpl; auto. }
    unfold WorkerQueueLen, lists_LLen.
    rewrite (Hk (redisPrefix ++ t')%string) by (left; reflexivity).
    rewrite (Hk ((redisPrefix ++ t') ++ redisHighPrioritySuffix)%string)
      by (right; left; reflexivity).
    reflexivity.
Qed.

(** ** The further properties on the deployment *)

Local Abbreviation failed_start_trace :=
  [EvWorkerStart konnector 0%nat; EvGoPollLoop "j/konnector" 0%nat;
   EvWorkerStart sendmail 1%nat].

Local Abbreviation pushed_sync :=
  [EvCreate (NewJob manual_sync) (inr "42");
   EvLPush "j/konnector/p0" "alice.cozy/42" None].

Lemma StartWorkers_partial_failure_witness :
  running (NewRedisBroker (Worker := Pool)) = 0 /\
  StartWorkers newPool falters slots NewRedisBroker configured
    = (serving, failed_start_trace, Some refused) /\
  pollLoops (Worker := Pool) failed_start_trace = ["j/konnector"] /\
  (List.length (workers serving) =
     List.length (pollLoops (Worker := Pool) failed_start_trace) + 1)%nat.
Proof.
  assert (Hr : running (NewRedisBroker (Worker := Pool)) = 0) by reflexivity.
  assert (H : StartWorkers newPool falters slots NewRedisBroker configured
              = (serving, failed_start_trace, Some refused)) by reflexivity.
  split; [exact Hr|]. split; [exact H|].
  destruct (StartWorkers_partial_failure newPool falters slots _ _ _ _ _ Hr H)
    as (pre & conf & post & _ & _ & _ & _ & _ & _ & _ & _ & Hlen).
  split; [reflexivity | exact Hlen].
Defined.

Lemma StartWorkers_then_PushJob_witness :
  StartWorkers newPool starts slots NewRedisBroker [thumbnail]
    = (registering, [], None) /\
  In thumbnail [thumbnail] /\
  req_WorkerType resize = WorkerType thumbnail /\
  exists rest,
    fst (PushJob creates redis_up registering resize)
      = EvCreate (NewJob resize) (creates (NewJob resize)) :: rest.
Proof.
  assert (H : StartWorkers newPool starts slots NewRedisBroker [thumbnail]
              = (registering, [], None)) by reflexivity.
  assert (Hin : In thumbnail [thumbnail]) by (left; reflexivity).
  split; [exact H|]. split; [exact Hin|]. split; [reflexivity|].
  exact (StartWorkers_then_PushJob newPool starts slots creates redis_up
           NewRedisBroker [thumbnail] resize registering [] thumbnail
           H Hin eq_refl).
Defined.

Lemma ShutdownWorkers_then_PushJob_witness :
  flag_ok (running serving) /\
  snd (ShutdownWorkers stops serving ctx50ms expires) = Some deadline /\
  PushJob creates redis_up
    (fst (fst (ShutdownWorkers stops serving ctx50ms expires))) manual_sync
    = ([], (None, Some ErrClosed)).
Proof.
  assert (Hf : flag_ok (running serving)) by (right; reflexivity).
  split; [exact Hf|]. split; [reflexivity|].
  exact (proj1 (ShutdownWorkers_then_PushJob stops creates redis_up
                  serving ctx50ms expires manual_sync Hf)).
Defined.

Lemma ShutdownWorkers_tokens_witness :
  running serving = 1 /\ workers serving <> [] /\
  first_done expires 2 0 = Some 1%nat /\
  count is_RecvClosed
    (snd (fst (ShutdownWorkers stops serving ctx50ms expires))) = 1%nat /\
  snd (ShutdownWorkers stops serving ctx50ms expires) = Some deadline.
Proof.
  assert (Hr : running serving = 1) by reflexivity.
  assert (Hw : workers serving <> []) by discriminate.
  split; [exact Hr|]. split; [exact Hw|]. split; [reflexivity|].
  pose proof (ShutdownWorkers_tokens stops serving ctx50ms expires Hr Hw)
    as H.
  cbv zeta in H. destruct H as [_ H].
  change (first_done expires (List.length (workers serving)) 0)
    with (Some 1%nat) in H.
  destruct H as (Hc & _ & He). split; [exact Hc | exact He].
Defined.

Lemma pollLoop_stops_at_flag_witness :
  t_running closing = 0 /\
  pollLoop (Worker := Pool) "j/konnector" 0%nat
    ([delivery; poison] ++ closing :: [delivery; delivery])
    = pollLoop "j/konnector" 0%nat ([delivery; poison] ++ [closing]) /\
  sent (fst (pollLoop (Worker := Pool) "j/konnector" 0%nat
               ([delivery; poison] ++ closing :: [delivery; delivery])))
    = [(0%nat, sync42)].
Proof.
  assert (H0 : t_running closing = 0) by reflexivity.
  split; [exact H0|].
  destruct (pollLoop_stops_at_flag (Worker := Pool) "j/konnector" 0%nat
              [delivery; poison] [delivery; delivery] closing H0)
    as (Heq & _ & _).
  split; [exact Heq|]. rewrite Heq. reflexivity.
Defined.

Lemma PushJob_then_poll_witness :
  PushJob creates redis_up serving manual_sync
    = (pushed_sync, (Some sync42, None)) /\
  ~ In "/"%char (list_ascii_of_string (req_Domain manual_sync)) /\
  lookups (pollBody (Worker := Pool) "j/konnector" 0%nat delivery)
    = [("alice.cozy", "42")] /\
  sent (pollBody (Worker := Pool) "j/konnector" 0%nat delivery)
    = [(0%nat, sync42)].
Proof.
  assert (H : PushJob creates redis_up serving manual_sync
              = (pushed_sync, (Some sync42, None))) by reflexivity.
  assert (Hd : ~ In "/"%char (list_ascii_of_string (req_Domain manual_sync))).
  { simpl. intros Hin.
    repeat (destruct Hin as [Hin|Hin]; [discriminate|]). exact Hin. }
  split; [exact H|]. split; [exact Hd|].
  destruct (PushJob_then_poll creates redis_up serving manual_sync
              pushed_sync sync42 H Hd) as (k & v & He & Hpoll).
  injection He as <- <-.
  destruct (Hpoll "j/konnector" 0%nat delivery [] eq_refl) as [Hl Hs].
  split; [exact Hl | exact (Hs sync42 eq_refl)].
Defined.

Lemma PushJob_then_poll_slash_witness :
  PushJob creates redis_up serving odd_sync
    = ([EvCreate (NewJob odd_sync) (inr "42");
        EvLPush "j/konnector" "alice/cozy/42" None],
       (Some (set_JobID (NewJob odd_sync) "42"), None)) /\
  req_Domain odd_sync = ("alice" ++ "/" ++ "cozy")%string /\
  ~ In "/"%char (list_ascii_of_string "alice") /\
  lookups (pollBody (Worker := Pool) "j/konnector" 0%nat odd)
    = [("alice", "cozy/42")].
Proof.
  assert (H : PushJob creates redis_up serving odd_sync
              = ([EvCreate (NewJob odd_sync) (inr "42");
                  EvLPush "j/konnector" "alice/cozy/42" None],
                 (Some (set_JobID (NewJob odd_sync) "42"), None)))
    by reflexivity.
  assert (Ha : ~ In "/"%char (list_ascii_of_string "alice")).
  { simpl. intros Hin.
    repeat (destruct Hin as [Hin|Hin]; [discriminate|]). exact Hin. }
  split; [exact H|]. split; [reflexivity|]. split; [exact Ha|].
  destruct (PushJob_then_poll_slash creates redis_up serving odd_sync
              _ _ "alice" "cozy" H eq_refl Ha) as (k & v & He & Hpoll).
  injection He as <- <-.
  exact (Hpoll "j/konnector" 0%nat odd [] eq_refl).
Defined.

Lemma WorkerQueueLen_result_witness :
  WorkerQueueLen three serving "konnector"
    = (["j/konnector"; "j/konnector/p0"], (6, None)) /\
  WorkerQueueLen half_down serving "konnector"
    = (["j/konnector"; "j/konnector/p0"], (0, Some refused)) /\
  WorkerQueueLen half_down serving "sendmail"
    = (["j/sendmail"], (0, Some refused)).
Proof.
  pose proof (WorkerQueueLen_result three serving "konnector") as H3.
  pose proof (WorkerQueueLen_result half_down serving "konnector") as Hk.
  pose proof (WorkerQueueLen_result half_down serving "sendmail") as Hs.
  cbv zeta in H3, Hk, Hs.
  split; [apply H3; lia|]. split; [exact Hk | exact Hs].
Defined.

Lemma reachable_invariant_witness :
  reachable newPool starts stops slots stopped /\
  flag_ok (running stopped) /\
  exists confs,
    workers stopped = map newPool confs /\
    forall c, In c confs ->
              has_slots c = true /\ In (WorkerType c) (WorkersTypes stopped).
Proof.
  assert (Hr : reachable newPool starts stops slots stopped).
  { exact (reach_shutdown newPool starts stops slots serving ctx50ms all_signal
             (reach_start newPool starts stops slots NewRedisBroker configured
                (reach_new newPool starts stops slots))). }
  split; [exact Hr|].
  exact (reachable_invariant newPool starts stops slots stopped Hr).
Defined.

Lemma PushJob_raises_queue_len_witness :
  PushJob creates redis_up serving manual_sync
    = (pushed_sync, (Some sync42, None)) /\
  snd (WorkerQueueLen (lists_LLen waiting) serving "konnector") = (2, None) /\
  snd (WorkerQueueLen (lists_LLen (lists_after (enqueued (Worker := Pool) pushed_sync) waiting))
         serving "konnector") = (2 + 1, None) /\
  WorkerQueueLen (lists_LLen (lists_after (enqueued (Worker := Pool) pushed_sync) waiting))
    serving "sendmail"
    = WorkerQueueLen (lists_LLen waiting) serving "sendmail".
Proof.
  assert (H : PushJob creates redis_up serving manual_sync
              = (pushed_sync, (Some sync42, None))) by reflexivity.
  split; [exact H|]. split; [reflexivity|].
  destruct (PushJob_raises_queue_len Pool creates redis_up serving manual_sync
              waiting pushed_sync sync42 H) as [Hup Hother].
  { vm_compute. reflexivity. }
  split; [exact Hup|].
  apply Hother. intros k [<-|[<-|[]]] [Hk|[Hk|[]]]; discriminate.
Defined.

(** ** The settings handlers *)

Module SettingsFacts.
Import Settings.

Lemma delete_protected_spec (m : Map) :
  (forall k, In k protected -> delete_protected m k = None) /\
  (forall k, ~ In k protected -> delete_protected m k = m k).
Proof.
  split.
  - intros k Hin. unfold protected in Hin. simpl in Hin.
    destruct Hin as [<-|[<-|[<-|[<-|[]]]]]; reflexivity.
  - intros k Hn. unfold delete_protected, map_delete.
    repeat match goal with
           | |- context [String.eqb k ?lit] =>
               destruct (String.eqb_spec k lit) as [->|_];
               [exfalso; apply Hn; unfold protected; simpl; tauto|]
           end.
    reflexivity.
Qed.

Lemma instance_fields_spec (E : Env) (inst : Instance) (m : Map) :
  instance_fields E inst m "locale" = Some (VString (Locale inst)) /\
  instance_fields E inst m "onboarding_finished"
    = Some (VBool (OnboardingFinished inst)) /\
  instance_fields E inst m "auto_update"
    = Some (VBool (negb (NoAutoUpdate inst))) /\
  instance_fields E inst m "auth_mode"
    = Some (VString (instance_AuthModeToString E (AuthMode inst))) /\
  instance_fields E inst m "tos" = Some (VString (TOSSigned inst)) /\
  instance_fields E inst m "uuid" = Some (VString (UUID inst)) /\
  instance_fields E inst m "context" = Some (VString (ContextName inst)) /\
  (forall k, ~ In k instance_keys -> instance_fields E inst m k = m k).
Proof.
  repeat (split; [reflexivity|]).
  intros k Hn. unfold instance_fields, map_set.
  repeat match goal with
         | |- context [String.eqb k ?lit] =>
             destruct (String.eqb_spec k lit) as [->|_];
             [exfalso; apply Hn; unfold instance_keys; simpl; tauto|]
         end.
  reflexivity.
Qed.

(** X17.  [getInstance] returns the error of the settings document without
    doing anything else.  Otherwise it asks the permission for the document
    that already carries the seven fields of the instance, the other keys of
    the settings document being kept; on a refusal it returns the error and
    sends no data; on success it answers 200 with that document. *)
Theorem getInstance_result (E : Env) (inst : Instance) :
  match inst_SettingsDocument E inst with
  | inl err => getInstance E inst = ([EvSettingsDocument], Some err)
  | inr doc =>
      exists out,
        M out "locale" = Some (VString (Locale inst)) /\
        M out "onboarding_finished" = Some (VBool (OnboardingFinished inst)) /\
        M out "auto_update" = Some (VBool (negb (NoAutoUpdate inst))) /\
        M out "auth_mode"
          = Some (VString (instance_AuthModeToString E (AuthMode inst))) /\
        M out "tos" = Some (VString (TOSSigned inst)) /\
        M out "uuid" = Some (VString (UUID inst)) /\
        M out "context" = Some (VString (ContextName inst)) /\
        (forall k, ~ In k instance_keys -> M out k = M doc k) /\
        doc_Type out = doc_Type doc /\
        match webpermissions_Allow E (permissions_GET E) out with
        | Some err =>
            getInstance E inst =
              ([EvSettingsDocument; EvAllow (permissions_GET E) out], Some err)
        | None =>
            getInstance E inst =
              ([EvSettingsDocument; EvAllow (permissions_GET E) out;
                EvData 200 out],
               jsonapi_Data E 200 out)
        end
  end.
Proof.
  unfold getInstance.
  destruct (inst_SettingsDocument E inst) as [err|doc]; [reflexivity|].
  exists (set_M doc (instance_fields E inst (M doc))).
  destruct (instance_fields_spec E inst (M doc))
    as (H1 & H2 & H3 & H4 & H5 & H6 & H7 & H8).
  cbn [M set_M doc_Type].
  repeat (split; [assumption || reflexivity|]).
  destruct (webpermissions_Allow E (permissions_GET E) _); reflexivity.
Qed.

(** X18.  In [updateInstance], once the body is read and the permission
    granted, [instance.Patch] is called once, on the instance of the request.
    Unless the permission of the caller is found and is of the command-line
    type, the document it is given has none of the keys [auth_mode], [tos],
    [uuid] and [context], whatever the body held, and its other keys are
    untouched; for the command line the document is given as it is. *)
Theorem updateInstance_protected_fields
    (E : Env) (inst : Instance) (doc : JSONDoc) (rev : string) :
  let doc0 :=
    doc_SetRev E
      (doc_SetID E (set_Type doc (consts_Settings E))
         (consts_InstanceSettingsID E)) rev in
  jsonapi_Bind E = inr (doc, rev) ->
  webpermissions_Allow E (webpermissions_PUT E) doc0 = None ->
  exists d,
    patched_settings (fst (updateInstance E inst)) = [(inst, d)] /\
    let restricted :=
      (forall k, In k protected -> M d k = None) /\
      (forall k, ~ In k protected -> M d k = M doc0 k) /\
      doc_Type d = doc_Type doc0 in
    match webpermissions_GetPermission E with
    | inl _ => restricted
    | inr t =>
        if String.eqb t (permissions_TypeCLI E) then d = doc0 else restricted
    end.
Proof.
  intros doc0 Hb Ha. unfold updateInstance. rewrite Hb. fold doc0. rewrite Ha.
  destruct (delete_protected_spec (M doc0)) as [Hdel Hkeep].
  assert (Hres : (forall k, In k protected ->
                            M (set_M doc0 (delete_protected (M doc0))) k = None) /\
                 (forall k, ~ In k protected ->
                            M (set_M doc0 (delete_protected (M doc0))) k
                            = M doc0 k) /\
                 doc_Type (set_M doc0 (delete_protected (M doc0)))
                 = doc_Type doc0).
  { repeat split; assumption. }
  destruct (webpermissions_GetPermission E) as [err|t]; cbv zeta.
  - eexists. split; [|exact Hres].
    destruct (instance_Patch_SettingsObj E inst _) as [e|[i' d'']]; reflexivity.
  - destruct (String.eqb t (permissions_TypeCLI E)); cbn [negb].
    + exists doc0. split; [|reflexivity].
      destruct (instance_Patch_SettingsObj E inst _) as [e|[i' d'']]; reflexivity.
    + eexists. split; [|exact Hres].
      destruct (instance_Patch_SettingsObj E inst _) as [e|[i' d'']]; reflexivity.
Qed.

(** X19.  [updateInstance] calls [instance.Patch] only after the body was
    read and the permission for the document granted, and it sends data only
    after [instance.Patch] succeeded; the error of the body, of the
    permission or of the patch is what it returns. *)
Theorem updateInstance_guards (E : Env) (inst : Instance) :
  let tr := fst (updateInstance E inst) in
  (patched_settings tr <> [] ->
     exists doc rev,
       jsonapi_Bind E = inr (doc, rev) /\
       webpermissions_Allow E (webpermissions_PUT E)
         (doc_SetRev E
            (doc_SetID E (set_Type doc (consts_Settings E))
               (consts_InstanceSettingsID E)) rev) = None) /\
  (responses tr <> [] ->
     exists d inst' doc'',
       patched_settings tr = [(inst, d)] /\
       instance_Patch_SettingsObj E inst d = inr (inst', doc'')) /\
  (responses tr = [] -> exists err, snd (updateInstance E inst) = Some err).
Proof.
  unfold updateInstance.
  destruct (jsonapi_Bind E) as [err|[doc rev]]; cbn [fst snd].
  - repeat split; intros H; try (exfalso; apply H; reflexivity). eauto.
  - destruct (webpermissions_Allow E (webpermissions_PUT E) _) as [err|] eqn:Ha;
      cbn [fst snd].
    + repeat split; intros H; try (exfalso; apply H; reflexivity). eauto.
    + cbv zeta.
      destruct (instance_Patch_SettingsObj E inst _) as [err|[inst' doc'']] eqn:Hp;
        cbn [fst snd].
      * split; [intros _; eauto|].
        split; [intros H; exfalso; apply H; reflexivity | eauto].
      * split; [intros _; eauto|]. split.
        -- intros _. do 3 eexists. split; [reflexivity | exact Hp].
        -- cbn. discriminate.
Qed.

(** X20.  When [updateInstance] goes through, it answers 200 with the
    document [instance.Patch] left, in which the seven fields of the instance
    are those of the instance as patched: what the body held under these
    keys is not echoed; the other keys are kept. *)
Theorem updateInstance_response (E : Env) (inst : Instance) :
  forall d inst' doc'',
    patched_settings (fst (updateInstance E inst)) = [(inst, d)] ->
    instance_Patch_SettingsObj E inst d = inr (inst', doc'') ->
    exists out,
      responses (fst (updateInstance E inst)) = [EvData 200 out] /\
      snd (updateInstance E inst) = jsonapi_Data E 200 out /\
      M out "locale" = Some (VString (Locale inst')) /\
      M out "onboarding_finished" = Some (VBool (OnboardingFinished inst')) /\
      M out "auto_update" = Some (VBool (negb (NoAutoUpdate inst'))) /\
      M out "auth_mode"
        = Some (VString (instance_AuthModeToString E (AuthMode inst'))) /\
      M out "tos" = Some (VString (TOSSigned inst')) /\
      M out "uuid" = Some (VString (UUID inst')) /\
      M out "context" = Some (VString (ContextName inst')) /\
      (forall k, ~ In k instance_keys -> M out k = M doc'' k).
Proof.
  intros d inst' doc''. unfold updateInstance.
  destruct (jsonapi_Bind E) as [err|[doc rev]]; cbn [fst snd];
    [discriminate|].
  destruct (webpermissions_Allow E (webpermissions_PUT E) _) as [err|];
    cbn [fst snd]; [discriminate|].
  cbv zeta.
  destruct (instance_Patch_SettingsObj E inst _) as [err|[i1 d1]] eqn:Hp;
    cbn [fst snd patched_settings app]; intros Hd Hp';
    injection Hd as <-; rewrite Hp in Hp'; [discriminate|].
  injection Hp' as <- <-.
  exists (set_M d1 (instance_fields E i1 (M d1))).
  destruct (instance_fields_spec E i1 (M d1))
    as (H1 & H2 & H3 & H4 & H5 & H6 & H7 & H8).
  cbn [M set_M]. repeat (split; [assumption || reflexivity|]). exact H8.
Qed.

(** X21.  [updateInstanceAuthMode] patches the authentication mode only
    when the permission on the settings type is granted, the arguments are
    read, the mode is a known one that the instance does not have yet and,
    for the two-factor mode by mail, the request carries a confirmation code
    that is not empty and that the instance validates; no confirmation mail
    is sent by such a request, and the mode patched is the one asked for. *)
Theorem updateInstanceAuthMode_patch_conditions (E : Env) (inst : Instance) :
  forall m,
    In m (patched_modes (fst (updateInstanceAuthMode E inst))) ->
    webpermissions_AllowWholeType E (permissions_PUT E) (consts_Settings E)
      = None /\
    exists code mode,
      c_Bind E = inr (m, code) /\
      instance_StringToAuthMode E m = inr mode /\
      inst_HasAuthMode E inst mode = false /\
      (mode <> instance_Basic E -> mode = instance_TwoFactorMail E ->
         code <> ""%string /\
         inst_ValidateMailConfirmationCode E inst code = true) /\
      patched_modes (fst (updateInstanceAuthMode E inst)) = [m] /\
      mails (fst (updateInstanceAuthMode E inst)) = O.
Proof.
  intros m. unfold updateInstanceAuthMode.
  destruct (webpermissions_AllowWholeType E _ _) as [err|]; [intros []|].
  destruct (c_Bind E) as [err|[am code]]; [intros []|].
  destruct (instance_StringToAuthMode E am) as [err|mode] eqn:Hs;
    [intros []|].
  destruct (inst_HasAuthMode E inst mode) eqn:Hh; [intros []|].
  destruct (mode =? instance_Basic E) eqn:Hb.
  - apply Z.eqb_eq in Hb.
    destruct (instance_Patch_AuthMode E inst am); cbn;
      intros [<-|[]]; (split; [reflexivity|]); exists code, mode;
      (split; [reflexivity|]); (split; [exact Hs|]); (split; [exact Hh|]);
      (split; [intros Hn _; contradiction|]); split; reflexivity.
  - destruct (mode =? instance_TwoFactorMail E) eqn:Ht.
    + destruct (String.eqb code "") eqn:Hc.
      * destruct (inst_SendMailConfirmationCode E inst); intros [].
      * apply String.eqb_neq in Hc.
        destruct (inst_ValidateMailConfirmationCode E inst code) eqn:Hv;
          cbn [negb]; [|intros []].
        destruct (instance_Patch_AuthMode E inst am); cbn;
      intros [<-|[]]; (split; [reflexivity|]); exists code, mode;
      (split; [reflexivity|]); (split; [exact Hs|]); (split; [exact Hh|]);
      (split; [intros _ _; split; [exact Hc | exact Hv]|]);
          split; reflexivity.
    + apply Z.eqb_neq in Ht.
      destruct (instance_Patch_AuthMode E inst am); cbn;
      intros [<-|[]]; (split; [reflexivity|]); exists code, mode;
      (split; [reflexivity|]); (split; [exact Hs|]); (split; [exact Hh|]);
      (split; [intros _ Heq; contradiction|]); split; reflexivity.
Qed.

(** X22.  A request for the two-factor mode by mail, on an instance that
    does not have it: without a code it sends the confirmation mail and
    patches nothing (answering 204 when the mail went out); with a code the
    instance rejects it answers 422, patches nothing and sends no mail; with
    a code the instance validates it patches the mode. *)
Theorem updateInstanceAuthMode_two_factor
    (E : Env) (inst : Instance) (m code : string) :
  webpermissions_AllowWholeType E (permissions_PUT E) (consts_Settings E)
    = None ->
  c_Bind E = inr (m, code) ->
  instance_StringToAuthMode E m = inr (instance_TwoFactorMail E) ->
  instance_TwoFactorMail E <> instance_Basic E ->
  inst_HasAuthMode E inst (instance_TwoFactorMail E) = false ->
  let tr := fst (updateInstanceAuthMode E inst) in
  (code = ""%string ->
     patched_modes tr = [] /\ mails tr = 1%nat /\
     match inst_SendMailConfirmationCode E inst with
     | Some err =>
         snd (updateInstanceAuthMode E inst) = Some err /\ responses tr = []
     | None =>
         snd (updateInstanceAuthMode E inst) = c_NoContent E 204 /\
         responses tr = [EvNoContent 204]
     end) /\
  (code <> ""%string ->
     inst_ValidateMailConfirmationCode E inst code = false ->
     patched_modes tr = [] /\ mails tr = O /\
     responses tr = [EvNoContent 422] /\
     snd (updateInstanceAuthMode E inst) = c_NoContent E 422) /\
  (code <> ""%string ->
     inst_ValidateMailConfirmationCode E inst code = true ->
     patched_modes tr = [m] /\ mails tr = O).
Proof.
  intros Ha Hb Hs Hne Hh tr. subst tr. unfold updateInstanceAuthMode.
  rewrite Ha, Hb, Hs, Hh.
  destruct (instance_TwoFactorMail E =? instance_Basic E) eqn:E1;
    [apply Z.eqb_eq in E1; contradiction|].
  rewrite Z.eqb_refl.
  split; [|split].
  - intros ->. cbn [String.eqb].
    destruct (inst_SendMailConfirmationCode E inst); repeat split.
  - intros Hc Hv. apply String.eqb_neq in Hc. rewrite Hc, Hv. repeat split.
  - intros Hc Hv. apply String.eqb_neq in Hc. rewrite Hc, Hv. cbn [negb].
    destruct (instance_Patch_AuthMode E inst m); repeat split.
Qed.

(** A request for a mode the instance already has answers 204 and patches
    nothing, sends no mail and validates no code; a request whose mode is not
    a known one returns the bad-request error built from the error of the
    conversion, and answers nothing itself. *)
Lemma updateInstanceAuthMode_no_change
    (E : Env) (inst : Instance) (m code : string) :
  webpermissions_AllowWholeType E (permissions_PUT E) (consts_Settings E)
    = None ->
  c_Bind E = inr (m, code) ->
  match instance_StringToAuthMode E m with
  | inl err =>
      updateInstanceAuthMode E inst =
        ([EvAllowWholeType (permissions_PUT E) (consts_Settings E); EvBindArgs],
         Some (jsonapi_BadRequest E err))
  | inr mode =>
      inst_HasAuthMode E inst mode = true ->
      updateInstanceAuthMode E inst =
        ([EvAllowWholeType (permissions_PUT E) (consts_Settings E); EvBindArgs;
          EvNoContent 204],
         c_NoContent E 204)
  end.
Proof.
  intros Ha Hb. unfold updateInstanceAuthMode. rewrite Ha, Hb.
  destruct (instance_StringToAuthMode E m) as [err|mode]; [reflexivity|].
  intros Hh. rewrite Hh. reflexivity.
Qed.

(** X23.  Whatever the request and the answers of the collaborators, on
    every path, the ones that return an error included:
    [updateInstanceAuthMode] sends at most one confirmation mail, patches the
    mode at most once and never does both; it answers at most once, and when
    it answers nothing it returns an error; the status it answers with is
    204, or 422 after a confirmation code was refused, in which case nothing
    was patched and no mail sent. *)
Theorem updateInstanceAuthMode_single_outcome (E : Env) (inst : Instance) :
  let tr := fst (updateInstanceAuthMode E inst) in
  (mails tr + List.length (patched_modes tr) <= 1)%nat /\
  ((responses tr = [] /\
      exists err, snd (updateInstanceAuthMode E inst) = Some err) \/
   (responses tr = [EvNoContent 204] /\
      snd (updateInstanceAuthMode E inst) = c_NoContent E 204) \/
   (responses tr = [EvNoContent 422] /\
      snd (updateInstanceAuthMode E inst) = c_NoContent E 422 /\
      mails tr = O /\ patched_modes tr = [] /\
      exists m code,
        c_Bind E = inr (m, code) /\
        inst_ValidateMailConfirmationCode E inst code = false)).
Proof.
  unfold updateInstanceAuthMode.
  destruct (webpermissions_AllowWholeType E _ _) as [err|];
    [split; [cbn; lia | left; cbn; eauto]|].
  destruct (c_Bind E) as [err|[am code]];
    [split; [cbn; lia | left; cbn; eauto]|].
  destruct (instance_StringToAuthMode E am) as [err|mode];
    [split; [cbn; lia | left; cbn; eauto]|].
  destruct (inst_HasAuthMode E inst mode);
    [split; [cbn; lia | right; left; cbn; auto]|].
  destruct (mode =? instance_Basic E).
  - destruct (instance_Patch_AuthMode E inst am);
      (split; [cbn; lia|]); [left; cbn; eauto | right; left; cbn; auto].
  - destruct (mode =? instance_TwoFactorMail E).
    + destruct (String.eqb code "").
      * destruct (inst_SendMailConfirmationCode E inst);
          (split; [cbn; lia|]); [left; cbn; eauto | right; left; cbn; auto].
      * destruct (inst_ValidateMailConfirmationCode E inst code) eqn:Hv;
          cbn [negb].
        -- destruct (instance_Patch_AuthMode E inst am);
             (split; [cbn; lia|]);
             [left; cbn; eauto | right; left; cbn; auto].
        -- split; [cbn; lia|]. right; right. cbn. repeat split. eauto.
    + destruct (instance_Patch_AuthMode E inst am);
        (split; [cbn; lia|]); [left; cbn; eauto | right; left; cbn; auto].
Qed.

End SettingsFacts.

(** ** The settings handlers on an instance *)

Module SettingsWitnesses.
Import Settings SettingsScenario.

Lemma updateInstance_protected_fields_witness :
  jsonapi_Bind (site from_app with_code) = inr (body, "3-abc") /\
  M body "uuid" = Some (VString "forged") /\
  exists d,
    patched_settings (fst (updateInstance (site from_app with_code) alice))
      = [(alice, d)] /\
    M d "uuid" = None /\
    M d "locale" = Some (VString "en") /\
    M d "tz" = Some (VString "Europe/Paris") /\
    exists d',
      patched_settings (fst (updateInstance (site from_cli with_code) alice))
        = [(alice, d')] /\
      M d' "uuid" = Some (VString "forged").
Proof.
  split; [reflexivity|]. split; [reflexivity|].
  destruct (SettingsFacts.updateInstance_protected_fields
              (site from_cli with_code) alice body "3-abc" eq_refl eq_refl)
    as (d' & Hp' & Hr').
  cbv zeta in Hr'. cbn [webpermissions_GetPermission site from_cli] in Hr'.
  change (String.eqb "cli" (permissions_TypeCLI (site from_cli with_code)))
    with true in Hr'.
  cbv iota in Hr'.
  destruct (SettingsFacts.updateInstance_protected_fields
              (site from_app with_code) alice body "3-abc" eq_refl eq_refl)
    as (d & Hp & Hr).
  exists d. split; [exact Hp|].
  cbv zeta in Hr. cbn [webpermissions_GetPermission site from_app] in Hr.
  change (String.eqb "app" (permissions_TypeCLI (site from_app with_code)))
    with false in Hr.
  cbv iota in Hr. destruct Hr as (Hnone & Hkeep & _).
  split; [apply Hnone; unfold protected; simpl; tauto|].
  split; [|split].
  - rewrite Hkeep; [reflexivity|].
    unfold protected. simpl. intros [H|[H|[H|[H|[]]]]]; discriminate.
  - rewrite Hkeep; [reflexivity|].
    unfold protected. simpl. intros [H|[H|[H|[H|[]]]]]; discriminate.
  - exists d'. split; [exact Hp'|]. rewrite Hr'. reflexivity.
Defined.

Lemma updateInstance_response_witness :
  exists out,
    responses (fst (updateInstance (site from_app with_code) alice))
      = [EvData 200 out] /\
    M out "uuid" = Some (VString "u-1") /\
    M out "locale" = Some (VString "en") /\
    M out "tz" = Some (VString "Europe/Paris").
Proof.
  edestruct (SettingsFacts.updateInstance_response
               (site from_app with_code) alice)
    as (out & Hr & _ & Hl & _ & _ & _ & _ & Hu & _ & Hk);
    [reflexivity | reflexivity |].
  exists out. split; [exact Hr|]. split; [exact Hu|]. split; [exact Hl|].
  rewrite Hk; [reflexivity|].
  unfold instance_keys. simpl.
  intros [H|[H|[H|[H|[H|[H|[H|[]]]]]]]]; discriminate.
Defined.

Lemma updateInstanceAuthMode_patch_conditions_witness :
  In "two_factor_mail"%string
    (patched_modes (fst (updateInstanceAuthMode (site from_app with_code) alice)))
  /\
  exists code mode,
    c_Bind (site from_app with_code) = inr ("two_factor_mail"%string, code) /\
    instance_StringToAuthMode (site from_app with_code) "two_factor_mail"
      = inr mode /\
    mails (fst (updateInstanceAuthMode (site from_app with_code) alice)) = O.
Proof.
  assert (Hin : In "two_factor_mail"%string
                  (patched_modes
                     (fst (updateInstanceAuthMode (site from_app with_code) alice))))
    by (left; reflexivity).
  split; [exact Hin|].
  destruct (SettingsFacts.updateInstanceAuthMode_patch_conditions
              (site from_app with_code) alice "two_factor_mail" Hin)
    as (_ & code & mode & Hb & Hs & _ & _ & _ & Hm).
  exists code, mode. repeat split; assumption.
Defined.

Lemma updateInstanceAuthMode_two_factor_witness :
  patched_modes (fst (updateInstanceAuthMode (site from_app without_code) alice))
    = [] /\
  mails (fst (updateInstanceAuthMode (site from_app without_code) alice))
    = 1%nat /\
  responses (fst (updateInstanceAuthMode (site from_app wrong_code) alice))
    = [EvNoContent 422] /\
  patched_modes (fst (updateInstanceAuthMode (site from_app wrong_code) alice))
    = [] /\
  patched_modes (fst (updateInstanceAuthMode (site from_app with_code) alice))
    = ["two_factor_mail"%string].
Proof.
  assert (Hne : (1 : Z) <> 0) by discriminate.
  destruct (SettingsFacts.updateInstanceAuthMode_two_factor
              (site from_app without_code) alice "two_factor_mail" ""
              eq_refl eq_refl eq_refl Hne eq_refl) as (Hno & _ & _).
  destruct (SettingsFacts.updateInstanceAuthMode_two_factor
              (site from_app wrong_code) alice "two_factor_mail" "000000"
              eq_refl eq_refl eq_refl Hne eq_refl) as (_ & Hbad & _).
  destruct (SettingsFacts.updateInstanceAuthMode_two_factor
              (site from_app with_code) alice "two_factor_mail" "123456"
              eq_refl eq_refl eq_refl Hne eq_refl) as (_ & _ & Hok).
  destruct (Hno eq_refl) as (H1 & H2 & _).
  destruct Hbad as (H3 & _ & H4 & _); [discriminate | reflexivity|].
  destruct Hok as (H5 & _); [discriminate | reflexivity|].
  repeat split; assumption.
Defined.

Lemma updateInstanceAuthMode_no_change_witness :
  updateInstanceAuthMode (site from_app to_basic) alice
    = ([EvAllowWholeType "PUT" "io.cozy.settings"; EvBindArgs; EvNoContent 204],
       None) /\
  updateInstanceAuthMode (site from_app to_sso) alice
    = ([EvAllowWholeType "PUT" "io.cozy.settings"; EvBindArgs],
       Some (ErrExternal "Invalid auth mode")).
Proof.
  pose proof (SettingsFacts.updateInstanceAuthMode_no_change
                (site from_app to_basic) alice "basic" "" eq_refl eq_refl) as Hb.
  pose proof (SettingsFacts.updateInstanceAuthMode_no_change
                (site from_app to_sso) alice "sso" "" eq_refl eq_refl) as Hs.
  split; [exact (Hb eq_refl) | exact Hs].
Defined.

End SettingsWitnesses.
